(** * CoinGecko MCP server: coin cache, lookup and request dispatcher

    A shallow embedding of [src/services/coingecko.ts] (class
    [CoinGeckoService]), of its compiled form [build/services/coingecko.js]
    (which adds [getOHLCData]) and of the server entry point (class
    [CoinCache], the argument schemas and the [CallToolRequestSchema]
    handler), followed by the properties of the cache and of the dispatcher.

    Conventions of the embedding.
    - A JavaScript [number] that the program computes with - a page, a page
      size, a UNIX time - is a double, [JS.number]: an integer, or a double
      of the standard library's [SpecFloat] (a fraction, an infinity, NaN).
      The lengths and positions of arrays, the bounds of the schemas and the
      status of a response are integers of [Z] or [nat]; the prices and
      volumes that are only moved around belong to a type parameter [num].
    - [undefined] and [null] are [None]; a value that may be absent is an
      [option].
    - A method is a computation over the [World]: the service instance, the
      requests sent so far and the lines written to the console.  A thrown
      value keeps the world reached when it was thrown, as in JavaScript.
    - What the network answers, what the clock reads, [toLowerCase], the
      text of a number in a template literal and the texts of the validation
      messages are parameters. *)

From Stdlib Require Import ZArith List String Ascii Bool Lia DecimalString
  SpecFloat.
Import ListNotations.

Set Warnings "-register-all".

Open Scope Z_scope.
Open Scope string_scope.

(* ================================================================== *)
(** * The fragment of the JavaScript runtime used by the program *)
(* ================================================================== *)

Module JS.

(** ** Numbers

    A JavaScript number is a double (IEEE 754 binary64).  An integer is
    held as an [Integer]; every other double - a fraction, the negative
    zero, an infinity, NaN - as a [Double], with the operations of
    [SpecFloat], the specification of binary64 arithmetic of the standard
    library.

    Between integers, [add], [sub] and [mul] give the exact integer.  That
    is the double arithmetic as long as the result is at most 2^53 in
    magnitude; beyond, a double holds a rounding of the result (an infinity
    when it overflows), of the same sign and at least 2^53 in magnitude,
    which this program cannot tell from the exact integer: it uses its
    results as bounds of [slice], clamped to the length of an array (below
    2^32), and as times, invalid beyond 8.64e15.  [Integer 0] stands for
    both zeros where the sign of a zero cannot be seen.  The type
    [spec_float] also has values that no double is (a mantissa of more than
    53 bits); what is proved of every number is proved of them too. *)

Definition prec : Z := 53.
Definition emax : Z := 1024.

Inductive number :=
| Integer (z : Z)
| Double (f : spec_float).

Definition Infinity : number := Double (S754_infinity false).
Definition NaN : number := Double S754_nan.

(** The double that holds a number (for an integer that no double holds,
    the nearest one). *)
Definition to_double (n : number) : spec_float :=
  match n with
  | Integer z => binary_normalize prec emax z 0 false
  | Double f => f
  end.

(** The integer that a double is, if it is one (the negative zero is kept
    apart). *)
Definition integer_value (f : spec_float) : option Z :=
  match f with
  | S754_zero false => Some 0
  | S754_finite s m e =>
      if (0 <=? e)%Z then Some (cond_Zopp s (Zpos m * 2 ^ e))
      else if (Zpos m mod 2 ^ (- e) =? 0)%Z
           then Some (cond_Zopp s (Zpos m / 2 ^ (- e)))
           else None
  | _ => None
  end.

Definition of_double (f : spec_float) : number :=
  match integer_value f with
  | Some z => Integer z
  | None => Double f
  end.

(** An integer written as a double is read as that integer. *)
Definition canon (n : number) : number :=
  match n with
  | Double f => of_double f
  | Integer _ => n
  end.

Definition arith (exact : Z -> Z -> Z)
  (rounded : spec_float -> spec_float -> spec_float) (x y : number) : number :=
  match canon x, canon y with
  | Integer a, Integer b => Integer (exact a b)
  | x', y' => of_double (rounded (to_double x') (to_double y'))
  end.

(** [x + y], [x - y], [x * y]. *)
Definition add : number -> number -> number := arith Z.add (SFadd prec emax).
Definition sub : number -> number -> number := arith Z.sub (SFsub prec emax).
Definition mul : number -> number -> number := arith Z.mul (SFmul prec emax).

(** [x / y]. *)
Definition div (x y : number) : number :=
  of_double (SFdiv prec emax (to_double x) (to_double y)).

Definition isNaN (n : number) : bool :=
  match n with
  | Double S754_nan => true
  | _ => false
  end.

(** [x < y] and [x > y]; both false when one side is NaN. *)
Definition ltb (x y : number) : bool :=
  match canon x, canon y with
  | Integer a, Integer b => (a <? b)%Z
  | x', y' => SFltb (to_double x') (to_double y')
  end.

Definition gtb (x y : number) : bool := ltb y x.

(** [Math.ceil (x)]. *)
Definition ceil (n : number) : number :=
  match n with
  | Integer _ => n
  | Double (S754_finite s m e) =>
      if (0 <=? e)%Z then of_double (S754_finite s m e)
      else
        let q := Zpos m / 2 ^ (- e) in
        if (Zpos m mod 2 ^ (- e) =? 0)%Z then Integer (cond_Zopp s q)
        else if s then (if (q =? 0)%Z then Double (S754_zero true)
                        else Integer (- q))
             else Integer (q + 1)
  | Double _ => n
  end.

(** [Math.ceil (n / d)] for an array length [n].  For an integer [d] other
    than 0 the result is the exact ceiling of the quotient: the length is
    below 2^32, so the rounding of the quotient cannot reach the next
    integer. *)
Definition ceil_div (n : nat) (d : number) : number :=
  match canon d with
  | Integer z =>
      if (z =? 0)%Z then
        match n with O => NaN | S _ => Infinity end
      else Integer (- ((- Z.of_nat n) / z))
  | d' => ceil (div (Integer (Z.of_nat n)) d')
  end.

(** ToIntegerOrInfinity: NaN is 0, a fraction is cut towards 0. *)
Inductive extended :=
| Finite (z : Z)
| PlusInfinity
| MinusInfinity.

Definition truncate (f : spec_float) : extended :=
  match f with
  | S754_nan | S754_zero _ => Finite 0
  | S754_infinity s => if s then MinusInfinity else PlusInfinity
  | S754_finite s m e =>
      Finite (cond_Zopp s (if (0 <=? e)%Z then Zpos m * 2 ^ e
                           else Zpos m / 2 ^ (- e)))
  end.

Definition to_integer_or_infinity (n : number) : extended :=
  match n with
  | Integer z => Finite z
  | Double f => truncate f
  end.

(** The time value of [new Date (n)]: the number cut towards 0, or nothing
    (an invalid date) when it is not finite or beyond 8.64e15. *)
Definition time_value (n : number) : option Z :=
  match n with
  | Double S754_nan => None
  | _ =>
      match to_integer_or_infinity n with
      | Finite z => if (Z.abs z <=? 8640000000000000)%Z then Some z else None
      | _ => None
      end
  end.

(** The exact value of a finite number, as a numerator and a denominator
    in lowest terms. *)
Definition fraction (n : number) : option (Z * Z) :=
  match n with
  | Integer z => Some (z, 1)
  | Double (S754_zero _) => Some (0, 1)
  | Double (S754_finite s m e) =>
      Some (if (0 <=? e)%Z then (cond_Zopp s (Zpos m * 2 ^ e), 1)
            else
              let g := Z.gcd (Zpos m) (2 ^ (- e)) in
              (cond_Zopp s (Zpos m / g), 2 ^ (- e) / g))
  | Double _ => None
  end.

(** The index clamping of [Array.prototype.slice]: a negative index counts
    from the end of the array, and the result stays within [0, len]. *)
Definition clamp (len k : Z) : Z :=
  if (k <? 0)%Z then Z.max (len + k) 0 else Z.min k len.

Definition relative_index (len : Z) (k : number) : Z :=
  match to_integer_or_infinity k with
  | Finite z => clamp len z
  | PlusInfinity => len
  | MinusInfinity => 0
  end.

(** [l.slice(start, end)]. *)
Definition slice {A : Type} (l : list A) (start end_ : number) : list A :=
  let len := Z.of_nat (List.length l) in
  let k := relative_index len start in
  let final := relative_index len end_ in
  firstn (Z.to_nat (final - k)) (skipn (Z.to_nat k) l).

(** A string is truthy when it is not empty. *)
Definition truthy (s : string) : bool := negb (String.eqb s "").

(** [v || null] for [v] a string or [undefined]. *)
Definition or_null (v : option string) : option string :=
  match v with
  | Some s => if truthy s then Some s else None
  | None => None
  end.

(** [p = d] in a parameter list or a destructuring pattern: the default
    is taken when the value is [undefined]. *)
Definition default {A : Type} (d : A) (v : option A) : A :=
  match v with Some a => a | None => d end.

(** [`${z}`] for an integer below 10^21 in magnitude: its decimal digits.
    It prints the indices of an array, the bounds of the schemas and the
    status of a response. *)
Definition toString (z : Z) : string := NilZero.string_of_int (Z.to_int z).

(** [xs.join(sep)]. *)
Definition join (sep : string) (xs : list string) : string :=
  String.concat sep xs.

(** Array destructuring [[a, b, ...] = row]: position [i] of the row, or
    [undefined]. *)
Definition at_ {A : Type} (row : list A) (i : nat) : option A :=
  nth_error row i.

End JS.

Arguments JS.ltb : simpl never.
Arguments JS.gtb : simpl never.

(* ================================================================== *)
(** * Data model *)
(* ================================================================== *)

Module CoinInfo.
Record t := mk {
  id : string;
  symbol : string;
  name : string;
  platforms : option (list (string * string))
}.
End CoinInfo.

(** An element of the result of [findCoinIds]: [{ name, id }]. *)
Module CoinId.
Record t := mk {
  name : string;
  id : option string
}.
End CoinId.

(** A [Date], as milliseconds since the epoch. *)
Definition Date := Z.

Record HistoricalData (num : Type) := {
  prices : list (num * num);
  market_caps : list (num * num);
  total_volumes : list (num * num)
}.

(** The record built by [getOHLCData]; a field is [None] where the
    destructured row had no such position. *)
Record OHLCData (num : Type) := {
  timestamp : option num;
  open : option num;
  high : option num;
  low : option num;
  close : option num
}.
Arguments Build_OHLCData {num}.

(** The instance fields of [CoinGeckoService] (and of [CoinCache]). *)
Record CoinGeckoService := {
  apiKey : string;
  coins : list CoinInfo.t;
  lastUpdated : option Date
}.

Definition baseUrl : string := "https://pro-api.coingecko.com/api/v3".

(** [new CoinGeckoService(apiKey)]. *)
Definition constructor (key : string) : CoinGeckoService :=
  {| apiKey := key; coins := []; lastUpdated := None |}.

(* ================================================================== *)
(** * Argument bags and their validation *)
(* ================================================================== *)

(** A JavaScript value as it arrives in [request.params.arguments]. *)
Inductive Value :=
| VUndefined
| VNull
| VBoolean (b : bool)
| VNumber (n : JS.number)
| VString (s : string)
| VArray (items : list Value)
| VObject (fields : list (string * Value)).

(** [obj[key]]: the value of the property, or [undefined]. *)
Fixpoint property (fields : list (string * Value)) (key : string) : Value :=
  match fields with
  | [] => VUndefined
  | (k, v) :: rest => if String.eqb k key then v else property rest key
  end.

(** The fragment of the validation library (zod) that the three argument
    schemas use: [z.number()] with [min]/[max], [z.string()], [z.array],
    [z.enum], [.optional()] and [z.object].  A schema is indexed by the type
    of the data it yields, as the library's TypeScript types are. *)
Module Zod.

Inductive PathItem :=
| Key (k : string)
| Index (i : nat).

Inductive ZodIssueCode :=
| invalid_type (expected received : string)
| too_small (minimum : Z)
| too_big (maximum : Z)
| invalid_enum_value (options : list string) (received : string).

Record ZodIssue := {
  code : ZodIssueCode;
  path : list PathItem;
  message : string
}.

Inductive NumberCheck :=
| min (value : Z)
| max (value : Z).

Inductive ZodType : Type -> Type :=
| number (checks : list NumberCheck) : ZodType JS.number
| string_ : ZodType string
| array {A : Type} (element : ZodType A) : ZodType (list A)
| enum (values : list string) : ZodType string
| optional {A : Type} (inner : ZodType A) : ZodType (option A)
| object {A : Type} (shape : Shape A) : ZodType A
with Shape : Type -> Type :=
| no_more : Shape unit
| field {A B : Type} (key : string) (schema : ZodType A) (rest : Shape B) :
    Shape (A * B).

(** The outcome of validating a value: the issues found, or the data. *)
Definition Outcome (A : Type) : Type := (list ZodIssue + A)%type.

(** The name the library gives to the type of a value. *)
Definition getParsedType (v : Value) : string :=
  match v with
  | VUndefined => "undefined"
  | VNull => "null"
  | VBoolean _ => "boolean"
  | VNumber n => if JS.isNaN n then "nan" else "number"
  | VString _ => "string"
  | VArray _ => "array"
  | VObject _ => "object"
  end.

(** ['a' | 'b' | ...], as the library prints the values of an enum. *)
Definition joinValues (values : list string) : string :=
  JS.join " | " (map (fun v => "'" ++ v ++ "'") values).

(** The library's default error map (version 3); the dispatcher works with
    any error map. *)
Definition defaultErrorMap (c : ZodIssueCode) : string :=
  match c with
  | invalid_type expected received =>
      if String.eqb received "undefined" then "Required"
      else "Expected " ++ expected ++ ", received " ++ received
  | too_small minimum =>
      "Number must be greater than or equal to " ++ JS.toString minimum
  | too_big maximum =>
      "Number must be less than or equal to " ++ JS.toString maximum
  | invalid_enum_value options received =>
      "Invalid enum value. Expected " ++ joinValues options
      ++ ", received '" ++ received ++ "'"
  end.

(** Validation gathers the issues of all the parts of a value. *)
Definition both {A B : Type} (a : Outcome A) (b : Outcome B) :
  Outcome (A * B) :=
  match a, b with
  | inr x, inr y => inr (x, y)
  | inl i, inl j => inl (i ++ j)%list
  | inl i, inr _ => inl i
  | inr _, inl j => inl j
  end.

Definition cons_outcome {A : Type} (a : Outcome A) (b : Outcome (list A)) :
  Outcome (list A) :=
  match both a b with
  | inr (x, xs) => inr (x :: xs)
  | inl i => inl i
  end.

(** The names of the fields that an object schema declares. *)
Fixpoint keys {A : Type} (s : Shape A) : list string :=
  match s with
  | no_more => []
  | field key _ rest => key :: keys rest
  end.

Definition fields {A : Type} (t : ZodType A) : list string :=
  match t with
  | object shape => keys shape
  | _ => []
  end.

Section Parse.

Variable errorMap : ZodIssueCode -> string.

Definition issue (c : ZodIssueCode) (p : list PathItem) : ZodIssue :=
  {| code := c; path := p; message := errorMap c |}.

Definition mismatch {A : Type} (expected : string) (p : list PathItem)
  (input : Value) : Outcome A :=
  inl [issue (invalid_type expected (getParsedType input)) p].

Definition check_number (p : list PathItem) (n : JS.number)
  (c : NumberCheck) : list ZodIssue :=
  match c with
  | min value =>
      if JS.ltb n (JS.Integer value) then [issue (too_small value) p] else []
  | max value =>
      if JS.gtb n (JS.Integer value) then [issue (too_big value) p] else []
  end.

Fixpoint parse_at {A : Type} (t : ZodType A) (p : list PathItem)
  (input : Value) {struct t} : Outcome A :=
  match t in ZodType T return Outcome T with
  | number checks =>
      match input with
      | VNumber n =>
          if JS.isNaN n then mismatch "number" p input
          else
            match flat_map (check_number p n) checks with
            | [] => inr n
            | issues => inl issues
            end
      | _ => mismatch "number" p input
      end
  | string_ =>
      match input with
      | VString s => inr s
      | _ => mismatch "string" p input
      end
  | array element =>
      match input with
      | VArray items =>
          (fix each (i : nat) (xs : list Value) : Outcome (list _) :=
             match xs with
             | [] => inr []
             | x :: rest =>
                 cons_outcome (parse_at element (p ++ [Index i])%list x)
                              (each (S i) rest)
             end) O items
      | _ => mismatch "array" p input
      end
  | enum values =>
      match input with
      | VString s =>
          if existsb (String.eqb s) values then inr s
          else inl [issue (invalid_enum_value values s) p]
      | _ => mismatch (joinValues values) p input
      end
  | optional inner =>
      match input with
      | VUndefined => inr None
      | _ =>
          match parse_at inner p input with
          | inr a => inr (Some a)
          | inl issues => inl issues
          end
      end
  | object shape =>
      match input with
      | VObject fields => parse_shape shape p fields
      | _ => mismatch "object" p input
      end
  end
with parse_shape {A : Type} (s : Shape A) (p : list PathItem)
  (fields : list (string * Value)) {struct s} : Outcome A :=
  match s in Shape T return Outcome T with
  | no_more => inr tt
  | field key schema rest =>
      both (parse_at schema (p ++ [Key key])%list (property fields key))
           (parse_shape rest p fields)
  end.

(** Validation from the root of the value, as [schema.safeParse(input)]
    does it; [parse], further down, throws the issues. *)
Definition safeParse {A : Type} (t : ZodType A) (input : Value) : Outcome A :=
  parse_at t [] input.

End Parse.

End Zod.

(* ================================================================== *)
(** * Computations: state, thrown values, the network and the console *)
(* ================================================================== *)

(** What a [throw] carries: an [Error] with its message, or the library's
    [ZodError] with its issues. *)
Inductive Thrown :=
| Error (message : string)
| ZodError (errors : list Zod.ZodIssue).

(** How a call ends. *)
Inductive Completion (A : Type) :=
| Return (a : A)
| Throw (e : Thrown).
Arguments Return {A} a.
Arguments Throw {A} e.

(** A call of [fetch]. *)
Record Request := {
  url : string;
  headers : list (string * string)
}.

(** What [fetch] resolves to; [json] is how [response.json()] ends (it
    throws when the body is not JSON), typed as the call site declares, and
    [text] how [response.text()] ends (it throws when the body cannot be
    read). *)
Record Response (A : Type) := {
  ok : bool;
  status : Z;
  statusText : string;
  response_headers : list (string * string);
  text : Completion string;
  json : Completion A
}.
Arguments ok {A}.
Arguments status {A}.
Arguments statusText {A}.
Arguments response_headers {A}.
Arguments text {A}.
Arguments json {A}.

(** An argument of [console.error]. *)
Inductive Logged :=
| LogString (s : string)
| LogThrown (e : Thrown)
| LogHeaders (h : list (string * string)).

Record World := {
  this : CoinGeckoService;
  requests : list Request;
  console : list (list Logged)
}.

(** The answer of an endpoint may depend on the requests already made. *)
Definition Endpoint (A : Type) : Type :=
  list Request -> Request -> Completion (Response A).

(** The world outside the process. *)
Record Upstream (num : Type) := {
  coins_list : Endpoint (list CoinInfo.t);
  market_chart_range : Endpoint (HistoricalData num);
  ohlc_range : Endpoint (list (list num));
  clock : list Request -> Date
}.
Arguments coins_list {num}.
Arguments market_chart_range {num}.
Arguments ohlc_range {num}.
Arguments clock {num}.

Definition M (A : Type) : Type := World -> World * Completion A.

Definition ret {A : Type} (a : A) : M A := fun w => (w, Return a).

Definition throw {A : Type} (e : Thrown) : M A := fun w => (w, Throw e).

Definition bind {A B : Type} (m : M A) (k : A -> M B) : M B :=
  fun w =>
    match m w with
    | (w', Return a) => k a w'
    | (w', Throw e) => (w', Throw e)
    end.

Notation "x <- m ;; k" := (bind m (fun x => k))
  (at level 61, m at next level, right associativity).
Notation "m ;; k" := (bind m (fun _ => k))
  (at level 61, right associativity).

(** [try { body } catch (error) { handler }]. *)
Definition try_catch {A : Type} (body : M A) (handler : Thrown -> M A) : M A :=
  fun w =>
    match body w with
    | (w', Return a) => (w', Return a)
    | (w', Throw e) => handler e w'
    end.

(** [await p] for a promise that has settled as [c]. *)
Definition await {A : Type} (c : Completion A) : M A := fun w => (w, c).

(** Reading a field of [this]. *)
Definition get {A : Type} (f : CoinGeckoService -> A) : M A :=
  fun w => (w, Return (f (this w))).

(** [this.coins = v]. *)
Definition set_coins (v : list CoinInfo.t) : M unit :=
  fun w =>
    ({| this := {| apiKey := apiKey (this w);
                   coins := v;
                   lastUpdated := lastUpdated (this w) |};
        requests := requests w;
        console := console w |}, Return tt).

(** [this.lastUpdated = d]. *)
Definition set_lastUpdated (d : Date) : M unit :=
  fun w =>
    ({| this := {| apiKey := apiKey (this w);
                   coins := coins (this w);
                   lastUpdated := Some d |};
        requests := requests w;
        console := console w |}, Return tt).

(** [console.error(...args)]. *)
Definition console_error (args : list Logged) : M unit :=
  fun w =>
    ({| this := this w;
        requests := requests w;
        console := (console w ++ [args])%list |}, Return tt).

(** [await fetch(url, { headers })]: the request is recorded, and the
    endpoint decides how the promise settles. *)
Definition fetch {A : Type} (endpoint : Endpoint A) (u : string)
  (h : list (string * string)) : M (Response A) :=
  fun w =>
    let r := {| url := u; headers := h |} in
    ({| this := this w;
        requests := (requests w ++ [r])%list;
        console := console w |}, endpoint (requests w) r).

(** [new Date()]. *)
Definition new_Date {num : Type} (up : Upstream num) : M Date :=
  fun w => (w, Return (clock up (requests w))).

(** [xs.map(f)] for a callback that is itself a computation. *)
Fixpoint mapM {A B : Type} (f : A -> M B) (xs : list A) : M (list B) :=
  match xs with
  | [] => ret []
  | x :: rest => y <- f x ;; ys <- mapM f rest ;; ret (y :: ys)
  end.

(** The parameters of a tool call: [{ name, arguments }]. *)
Module CallToolRequest.
Record params := {
  name : string;
  arguments : Value
}.
End CallToolRequest.

(** A [Date] rendered by [toISOString]. *)
Inductive ISOString :=
| ISO (ms : Z).

(** ** Sample data for the examples *)

(** ASCII lower-casing, an instance of [toLowerCase] for the examples. *)
Definition lower_ascii (c : ascii) : ascii :=
  let n := nat_of_ascii c in
  if andb (65 <=? n)%nat (n <=? 90)%nat then ascii_of_nat (n + 32) else c.

Fixpoint asciiToLowerCase (s : string) : string :=
  match s with
  | EmptyString => EmptyString
  | String c rest => String (lower_ascii c) (asciiToLowerCase rest)
  end.

(** The text of a number in a template literal, an instance of
    [numberToString] for the examples, which print UNIX times: the decimal
    digits of an integer (below 10^21 in magnitude), and the names of the
    infinities and of NaN.  The text of a fraction is not needed by the
    examples, and is left empty. *)
Definition integerToString (n : JS.number) : string :=
  match JS.canon n with
  | JS.Integer z => JS.toString z
  | JS.Double (S754_infinity false) => "Infinity"
  | JS.Double (S754_infinity true) => "-Infinity"
  | JS.Double S754_nan => "NaN"
  | JS.Double (S754_zero _) => "0"
  | JS.Double (S754_finite _ _ _) => ""
  end.

(** The double 1.5, and the double 1.3333333333333333, which is the
    nearest to 4/3 and lies below it: the quotients 3 / 2 and 4 / 3 of
    doubles. *)
Definition one_and_a_half : JS.number :=
  JS.div (JS.Integer 3) (JS.Integer 2).

Definition one_and_a_third : JS.number :=
  JS.div (JS.Integer 4) (JS.Integer 3).

Definition bitcoin : CoinInfo.t :=
  CoinInfo.mk "bitcoin" "btc" "Bitcoin" None.

Definition ethereum : CoinInfo.t :=
  CoinInfo.mk "ethereum" "eth" "Ethereum" None.

Definition tether : CoinInfo.t :=
  CoinInfo.mk "tether" "usdt" "Tether"
    (Some [("ethereum", "0xdac17f958d2ee523a2206206994597c13d831ec7")]).

(** A record whose id is the empty string. *)
Definition nameless : CoinInfo.t :=
  CoinInfo.mk "" "x" "X" None.

(** A service holding [cached], before any request or console output. *)
Definition world_with (cached : list CoinInfo.t) : World :=
  {| this := {| apiKey := "CG-key"; coins := cached; lastUpdated := None |};
     requests := [];
     console := [] |}.

(** A response with status 200 and a readable body. *)
Definition success {A : Type} (body : A) : Response A :=
  {| ok := true; status := 200; statusText := "OK";
     response_headers := []; text := Return ""; json := Return body |}.

(** A response with status 500. *)
Definition server_error {A : Type} : Response A :=
  {| ok := false; status := 500; statusText := "Internal Server Error";
     response_headers := []; text := Return "";
     json := Throw (Error "Unexpected end of JSON input") |}.

(** An upstream that always gives the same answers, at a fixed time. *)
Definition upstream_with
  (list_answer : Completion (Response (list CoinInfo.t)))
  (ohlc_answer : Completion (Response (list (list Z)))) : Upstream Z :=
  {| coins_list := fun _ _ => list_answer;
     market_chart_range := fun _ _ => Throw (Error "fetch failed");
     ohlc_range := fun _ _ => ohlc_answer;
     clock := fun _ => 1711296000000 |}.

(** A cache of three records. *)
Definition catalogue : World := world_with [bitcoin; ethereum; tether].

(** A cache that was refreshed. *)
Definition refreshed : World :=
  {| this := {| apiKey := "CG-key"; coins := [bitcoin];
                lastUpdated := Some 1711296000000 |};
     requests := [];
     console := [] |}.

(** A series of prices, and an upstream that answers every request for a
    chart with it. *)
Definition chart : HistoricalData Z :=
  {| prices := [(1711296000000, 65000)];
     market_caps := [(1711296000000, 1280000000000)];
     total_volumes := [(1711296000000, 35000000000)] |}.

Definition upstream_with_chart : Upstream Z :=
  {| coins_list := fun _ _ => Throw (Error "fetch failed");
     market_chart_range := fun _ _ => Return (success chart);
     ohlc_range := fun _ _ => Throw (Error "fetch failed");
     clock := fun _ => 1711296000000 |}.

(** The bag of a call for bitcoin in dollars over [from, to]. *)
Definition range_bag (from to : Z) (interval : string) : Value :=
  VObject [("id", VString "bitcoin"); ("vs_currency", VString "usd");
           ("from", VNumber (JS.Integer from));
           ("to", VNumber (JS.Integer to));
           ("interval", VString interval)].

(** Rows of three, no and six positions. *)
Definition ragged_rows : list (list Z) :=
  [[1711296000; 65000; 65500]; []; [1711299600; 1; 2; 3; 4; 5]].

(** The call of [get-coins] with [{ pageSize: 5000 }], and the issue that
    the default error map reports for it. *)
Definition too_many_per_page : CallToolRequest.params :=
  {| CallToolRequest.name := "get-coins";
     CallToolRequest.arguments :=
       VObject [("pageSize", VNumber (JS.Integer 5000))] |}.

(** The fields [{ page: 0, pageSize: 5000 }]. *)
Definition zero_and_5000 : list (string * Value) :=
  [("page", VNumber (JS.Integer 0)); ("pageSize", VNumber (JS.Integer 5000))].


(* ================================================================== *)
(** * The program *)
(* ================================================================== *)

Section Program.

(** The type of the numbers of the market data. *)
Variable num : Type.

(** [String.prototype.toLowerCase]. *)
Variable toLowerCase : string -> string.

(** The upstream API and the clock. *)
Variable upstream : Upstream num.

(** The error map of the validation library. *)
Variable errorMap : Zod.ZodIssueCode -> string.

(** [`${x}`] for a number (Number::toString): the decimal digits of an
    integer below 10^21, and an exponent or a fraction otherwise. *)
Variable numberToString : JS.number -> string.

(** ** [CoinGeckoService] (the server's [CoinCache] has the same methods,
    with the same bodies) *)

Definition refreshCoinList : M unit :=
  try_catch
    (key <- get apiKey ;;
     response <- fetch (coins_list upstream)
                   (baseUrl ++ "/coins/list?include_platform=true")
                   [("X-Cg-Pro-Api-Key", key)] ;;
     if negb (ok response) then
       throw (Error ("API request failed: " ++ statusText response))
     else
       data <- await (json response) ;;
       set_coins data ;;
       now <- new_Date upstream ;;
       set_lastUpdated now)
    (fun error =>
       console_error [LogString "Error refreshing coin cache:";
                      LogThrown error] ;;
       throw error).

Definition getHistoricalData (id vs_currency : string) (from to : JS.number)
  (interval : option string) : M (HistoricalData num) :=
  let url0 :=
    baseUrl ++ "/coins/" ++ id ++ "/market_chart/range?vs_currency="
    ++ vs_currency ++ "&from=" ++ numberToString from
    ++ "&to=" ++ numberToString to in
  let url1 :=
    match interval with
    | Some i => if JS.truthy i then url0 ++ "&interval=" ++ i else url0
    | None => url0
    end in
  try_catch
    (key <- get apiKey ;;
     response <- fetch (market_chart_range upstream) url1
                   [("X-Cg-Pro-Api-Key", key)] ;;
     if negb (ok response) then
       throw (Error ("API request failed: " ++ statusText response))
     else await (json response))
    (fun error =>
       console_error [LogString "Error fetching historical data:";
                      LogThrown error] ;;
       throw error).

(** The callback of [data.map] in [getOHLCData]:
    [([timestamp, open, high, low, close]) => ({ timestamp, ... })]. *)
Definition reshape (row : list num) : OHLCData num :=
  {| timestamp := JS.at_ row 0;
     open := JS.at_ row 1;
     high := JS.at_ row 2;
     low := JS.at_ row 3;
     close := JS.at_ row 4 |}.

Definition getOHLCData (id vs_currency : string) (from to : JS.number)
  (interval : string) : M (list (OHLCData num)) :=
  let url1 :=
    baseUrl ++ "/coins/" ++ id ++ "/ohlc/range?vs_currency=" ++ vs_currency
    ++ "&from=" ++ numberToString from ++ "&to=" ++ numberToString to
    ++ "&interval=" ++ interval in
  console_error [LogString ("Making request to: " ++ url1)] ;;
  try_catch
    (key <- get apiKey ;;
     response <- fetch (ohlc_range upstream) url1
                   [("X-Cg-Pro-Api-Key", key); ("accept", "application/json")] ;;
     if negb (ok response) then
       responseText <- await (text response) ;;
       console_error [LogString ("API Response Status: "
                                 ++ JS.toString (status response) ++ " "
                                 ++ statusText response)] ;;
       console_error [LogString "API Response Headers:";
                      LogHeaders (response_headers response)] ;;
       console_error [LogString "API Response Body:"; LogString responseText] ;;
       throw (Error ("API request failed: " ++ JS.toString (status response)
                     ++ " " ++ statusText response ++ " - " ++ responseText))
     else
       data <- await (json response) ;;
       ret (map reshape data))
    (fun error =>
       console_error [LogString "Error fetching OHLC data:";
                      LogThrown error] ;;
       throw error).

Definition getCoins (page pageSize : option JS.number) :
  M (list CoinInfo.t) :=
  let page := JS.default (JS.Integer 1) page in
  let pageSize := JS.default (JS.Integer 100) pageSize in
  let start := JS.mul (JS.sub page (JS.Integer 1)) pageSize in
  let end_ := JS.add start pageSize in
  cached <- get coins ;;
  ret (JS.slice cached start end_).

(** The callback of [this.coins.find] in [findCoinIds]. *)
Definition matches (normalizedName : string) (c : CoinInfo.t) : bool :=
  String.eqb (toLowerCase (CoinInfo.name c)) normalizedName
  || String.eqb (toLowerCase (CoinInfo.symbol c)) normalizedName.

Definition findCoinIds (coinNames : list string) : M (list CoinId.t) :=
  mapM (fun name =>
          let normalizedName := toLowerCase name in
          cached <- get coins ;;
          let coin := find (matches normalizedName) cached in
          ret {| CoinId.name := name;
                 CoinId.id := JS.or_null (option_map CoinInfo.id coin) |})
       coinNames.

Definition getTotalPages (pageSize : option JS.number) : M JS.number :=
  let pageSize := JS.default (JS.Integer 100) pageSize in
  cached <- get coins ;;
  ret (JS.ceil_div (List.length cached) pageSize).

Definition getLastUpdated : M (option Date) :=
  get lastUpdated.

(** ** The server entry point: schemas and the tool handler *)

Definition GetCoinsArgumentsSchema :=
  Zod.object
    (Zod.field "page" (Zod.optional (Zod.number [Zod.min 1]))
    (Zod.field "pageSize"
       (Zod.optional (Zod.number [Zod.min 1; Zod.max 1000]))
     Zod.no_more)).

Definition FindCoinIdsArgumentsSchema :=
  Zod.object (Zod.field "coins" (Zod.array Zod.string_) Zod.no_more).

Definition GetHistoricalDataArgumentsSchema :=
  Zod.object
    (Zod.field "id" Zod.string_
    (Zod.field "vs_currency" Zod.string_
    (Zod.field "from" (Zod.number [])
    (Zod.field "to" (Zod.number [])
    (Zod.field "interval" (Zod.optional (Zod.enum ["5m"; "hourly"; "daily"]))
     Zod.no_more))))).

(** [schema.parse(input)]: the data, or a thrown [ZodError]. *)
Definition parse {A : Type} (schema : Zod.ZodType A) (input : Value) : M A :=
  match Zod.safeParse errorMap schema input with
  | inr data => ret data
  | inl issues => throw (ZodError issues)
  end.

(** What the handler hands to [JSON.stringify] (or, for [refresh-cache],
    to the template of its message), before it becomes text. *)
Inductive Payload :=
| CoinsPage (coins : list CoinInfo.t) (currentPage : JS.number)
    (totalPages : JS.number) (pageSize : JS.number)
    (lastUpdated : option ISOString)
| CoinIds (results : list CoinId.t)
| CacheRefreshed (lastUpdated : option ISOString)
| HistoricalRange (from to : ISOString) (interval : string)
    (data : HistoricalData num).

(** [new Date(n).toISOString()], which throws on an invalid date. *)
Definition toISOString (n : JS.number) : M ISOString :=
  match JS.time_value n with
  | Some ms => ret (ISO ms)
  | None => throw (Error "Invalid time value")
  end.

(** An element of [e.path], as [join] prints it. *)
Definition path_item (i : Zod.PathItem) : string :=
  match i with
  | Zod.Key k => k
  | Zod.Index n => JS.toString (Z.of_nat n)
  end.

(** The message built in the handler's [catch] for a [ZodError]. *)
Definition invalid_arguments (errors : list Zod.ZodIssue) : string :=
  "Invalid arguments: "
  ++ JS.join ", "
       (map (fun e =>
               JS.join "." (map path_item (Zod.path e)) ++ ": " ++ Zod.message e)
            errors).

Definition handler (request : CallToolRequest.params) : M Payload :=
  let name := CallToolRequest.name request in
  let args := CallToolRequest.arguments request in
  try_catch
    (if String.eqb name "get-coins" then
       parsed <- parse GetCoinsArgumentsSchema args ;;
       let '(page, (pageSize, _)) := parsed in
       let page := JS.default (JS.Integer 1) page in
       let pageSize := JS.default (JS.Integer 100) pageSize in
       coins <- getCoins (Some page) (Some pageSize) ;;
       totalPages <- getTotalPages (Some pageSize) ;;
       lastUpdated <- getLastUpdated ;;
       ret (CoinsPage coins page totalPages pageSize
              (option_map ISO lastUpdated))
     else if String.eqb name "find-coin-ids" then
       parsed <- parse FindCoinIdsArgumentsSchema args ;;
       let '(coins, _) := parsed in
       results <- findCoinIds coins ;;
       ret (CoinIds results)
     else if String.eqb name "refresh-cache" then
       refreshCoinList ;;
       lastUpdated <- getLastUpdated ;;
       ret (CacheRefreshed (option_map ISO lastUpdated))
     else if String.eqb name "get-historical-data" then
       parsed <- parse GetHistoricalDataArgumentsSchema args ;;
       let '(id, (vs_currency, (from, (to, (interval, _))))) := parsed in
       data <- getHistoricalData id vs_currency from to interval ;;
       from' <- toISOString (JS.mul from (JS.Integer 1000)) ;;
       to' <- toISOString (JS.mul to (JS.Integer 1000)) ;;
       ret (HistoricalRange from' to'
              (match interval with
               | Some i => if JS.truthy i then i else "auto"
               | None => "auto"
               end)
              data)
     else throw (Error ("Unknown tool: " ++ name)))
    (fun error =>
       match error with
       | ZodError errors => throw (Error (invalid_arguments errors))
       | _ => throw error
       end).

(** ** Running a series of read-only queries *)

Inductive Query :=
| QGetCoins (page pageSize : option JS.number)
| QFindCoinIds (coinNames : list string)
| QGetTotalPages (pageSize : option JS.number)
| QGetLastUpdated.

Inductive Answer :=
| ACoins (page : list CoinInfo.t)
| ACoinIds (results : list CoinId.t)
| ATotalPages (n : JS.number)
| ALastUpdated (d : option Date).

Definition query (q : Query) : M Answer :=
  match q with
  | QGetCoins page pageSize => r <- getCoins page pageSize ;; ret (ACoins r)
  | QFindCoinIds coinNames => r <- findCoinIds coinNames ;; ret (ACoinIds r)
  | QGetTotalPages pageSize =>
      r <- getTotalPages pageSize ;; ret (ATotalPages r)
  | QGetLastUpdated => r <- getLastUpdated ;; ret (ALastUpdated r)
  end.

(** ** [CoinGeckoMCPServer]: the server class of the compiled sources *)

Definition GetOHLCDataArgumentsSchema :=
  Zod.object
    (Zod.field "id" Zod.string_
    (Zod.field "vs_currency" Zod.string_
    (Zod.field "from" (Zod.number [])
    (Zod.field "to" (Zod.number [])
    (Zod.field "interval" (Zod.enum ["daily"; "hourly"])
     Zod.no_more))))).

(** What the server's handler hands to [JSON.stringify]: what the entry
    point's handler does, or the bars of [get-ohlc-data]. *)
Inductive ServerPayload :=
| Shared (p : Payload)
| OHLCRange (from to : ISOString) (interval : string)
    (data : list (OHLCData num)).

(** The [CallToolRequestSchema] handler set up by [setupRequestHandlers]. *)
Definition server_handler (request : CallToolRequest.params) :
  M ServerPayload :=
  let name := CallToolRequest.name request in
  let args := CallToolRequest.arguments request in
  try_catch
    (if String.eqb name "get-coins" then
       parsed <- parse GetCoinsArgumentsSchema args ;;
       let '(page, (pageSize, _)) := parsed in
       let page := JS.default (JS.Integer 1) page in
       let pageSize := JS.default (JS.Integer 100) pageSize in
       coins <- getCoins (Some page) (Some pageSize) ;;
       totalPages <- getTotalPages (Some pageSize) ;;
       lastUpdated <- getLastUpdated ;;
       ret (Shared (CoinsPage coins page totalPages pageSize
                      (option_map ISO lastUpdated)))
     else if String.eqb name "find-coin-ids" then
       parsed <- parse FindCoinIdsArgumentsSchema args ;;
       let '(coins, _) := parsed in
       results <- findCoinIds coins ;;
       ret (Shared (CoinIds results))
     else if String.eqb name "get-historical-data" then
       parsed <- parse GetHistoricalDataArgumentsSchema args ;;
       let '(id, (vs_currency, (from, (to, (interval, _))))) := parsed in
       data <- getHistoricalData id vs_currency from to interval ;;
       from' <- toISOString (JS.mul from (JS.Integer 1000)) ;;
       to' <- toISOString (JS.mul to (JS.Integer 1000)) ;;
       ret (Shared (HistoricalRange from' to'
                      (match interval with
                       | Some i => if JS.truthy i then i else "auto"
                       | None => "auto"
                       end)
                      data))
     else if String.eqb name "refresh-cache" then
       refreshCoinList ;;
       lastUpdated <- getLastUpdated ;;
       ret (Shared (CacheRefreshed (option_map ISO lastUpdated)))
     else if String.eqb name "get-ohlc-data" then
       parsed <- parse GetOHLCDataArgumentsSchema args ;;
       let '(id, (vs_currency, (from, (to, (interval, _))))) := parsed in
       data <- getOHLCData id vs_currency from to interval ;;
       from' <- toISOString (JS.mul from (JS.Integer 1000)) ;;
       to' <- toISOString (JS.mul to (JS.Integer 1000)) ;;
       ret (OHLCRange from' to' interval data)
     else throw (Error ("Unknown tool: " ++ name)))
    (fun error =>
       match error with
       | ZodError errors => throw (Error (invalid_arguments errors))
       | _ => throw error
       end).

(** The names under which the [ListToolsRequestSchema] handler of the entry
    point lists its tools. *)
Definition listed_tools : list string :=
  ["get-coins"; "find-coin-ids"; "refresh-cache"; "get-historical-data"].

(** ** The process: start-up, then one tool call after the other *)

(** The world of a process that has just built its cache object:
    [new CoinCache(apiKey)]. *)
Definition initial (key : string) : World :=
  {| this := constructor key; requests := []; console := [] |}.

(** A process runs, or has called [process.exit]. *)
Inductive Process :=
| Running (w : World)
| Exited (code : Z) (w : World).

(** Start-up: [cache.refreshCache().catch(error => { console.error(...);
    process.exit(1) })]. *)
Definition start (key : string) : Process :=
  match refreshCoinList (initial key) with
  | (w, Return _) => Running w
  | (w, Throw error) =>
      Exited 1
        (fst (console_error [LogString "Failed to initialize coin cache:";
                             LogThrown error] w))
  end.

(** Tool calls handled one after the other; a call that throws leaves the
    process running. *)
Fixpoint serve (calls : list CallToolRequest.params) (w : World) :
  World * list (Completion Payload) :=
  match calls with
  | [] => (w, [])
  | call :: rest =>
      let (w1, outcome) := handler call w in
      let (w2, outcomes) := serve rest w1 in
      (w2, outcome :: outcomes)
  end.

(** ** What the properties speak of *)

(** A record answers a query when its name or its symbol is the query,
    both sides lower-cased. *)
Definition Matches (query : string) (c : CoinInfo.t) : Prop :=
  toLowerCase (CoinInfo.name c) = toLowerCase query
  \/ toLowerCase (CoinInfo.symbol c) = toLowerCase query.

(** The first record of a snapshot, in stored order, that answers a query,
    if there is one. *)
Inductive FirstMatch (query : string) :
  list CoinInfo.t -> option CoinInfo.t -> Prop :=
| first_match_none (l : list CoinInfo.t) :
    (forall c, In c l -> ~ Matches query c) ->
    FirstMatch query l None
| first_match_some (before : list CoinInfo.t) (c : CoinInfo.t)
    (after : list CoinInfo.t) :
    (forall c', In c' before -> ~ Matches query c') ->
    Matches query c ->
    FirstMatch query (before ++ c :: after)%list (Some c).

(** The lookup as the specification words it: each result pairs its query
    with the id of the first match, whatever that id is, or with null when
    nothing matches. *)
Definition pairs_with_first_id (cached : list CoinInfo.t)
  (coinNames : list string) (results : list CoinId.t) : Prop :=
  Forall2
    (fun query r =>
       CoinId.name r = query
       /\ exists m, FirstMatch query cached m
                    /\ CoinId.id r = option_map CoinInfo.id m)
    coinNames results.

(** The request that [refreshCoinList] sends. *)
Definition refresh_request (w : World) : Request :=
  {| url := baseUrl ++ "/coins/list?include_platform=true";
     headers := [("X-Cg-Pro-Api-Key", apiKey (this w))] |}.

(** The ways in which the upstream fails a request, with what is thrown:
    the transport fails, the status is not a success, or the body is not
    what [json()] can read. *)
Inductive UpstreamFailure {A : Type} : Completion (Response A) -> Thrown -> Prop :=
| transport_failure (e : Thrown) :
    UpstreamFailure (Throw e) e
| status_failure (r : Response A) :
    ok r = false ->
    UpstreamFailure (Return r) (Error ("API request failed: " ++ statusText r))
| body_failure (r : Response A) (e : Thrown) :
    ok r = true -> json r = Throw e ->
    UpstreamFailure (Return r) e.

(** The request that [getOHLCData] sends. *)
Definition ohlc_request (w : World) (id vs_currency : string)
  (from to : JS.number) (interval : string) : Request :=
  {| url := baseUrl ++ "/coins/" ++ id ++ "/ohlc/range?vs_currency="
            ++ vs_currency ++ "&from=" ++ numberToString from
            ++ "&to=" ++ numberToString to ++ "&interval=" ++ interval;
     headers := [("X-Cg-Pro-Api-Key", apiKey (this w));
                 ("accept", "application/json")] |}.

(** The request that [getHistoricalData] sends: the interval is part of the
    URL only when it is given and not empty. *)
Definition historical_request (w : World) (id vs_currency : string)
  (from to : JS.number) (interval : option string) : Request :=
  {| url := (baseUrl ++ "/coins/" ++ id ++ "/market_chart/range?vs_currency="
             ++ vs_currency ++ "&from=" ++ numberToString from
             ++ "&to=" ++ numberToString to)
            ++ match interval with
               | Some i => if JS.truthy i then "&interval=" ++ i else ""
               | None => ""
               end;
     headers := [("X-Cg-Pro-Api-Key", apiKey (this w))] |}.

(** The order of the numbers: that of the integers between two integers,
    and that of the doubles ([SFltb], of the standard library) when one of
    the two is no integer. *)
Definition Less (x y : JS.number) : Prop :=
  match JS.canon x, JS.canon y with
  | JS.Integer a, JS.Integer b => a < b
  | x', y' => SFltb (JS.to_double x') (JS.to_double y') = true
  end.
Arguments Less : simpl never.

(** What the schema of an optional number with a lower bound, and possibly
    an upper bound, accepts: nothing, or a number, whole or not, that is not
    NaN, not less than the lower bound and not more than the upper one. *)
Definition optional_between (lo : Z) (hi : option Z) (v : Value)
  (out : option JS.number) : Prop :=
  match v, out with
  | VUndefined, None => True
  | VNumber n, Some n' =>
      n' = n /\ n <> JS.NaN
      /\ ~ Less n (JS.Integer lo)
      /\ match hi with
         | Some h => ~ Less (JS.Integer h) n
         | None => True
         end
  | _, _ => False
  end.

(** The loop of [z.array(z.string())] over the items of an array, from
    index [i] on. *)
Fixpoint strings_from (p : list Zod.PathItem) (i : nat) (xs : list Value) :
  Zod.Outcome (list string) :=
  match xs with
  | [] => inr []
  | x :: rest =>
      Zod.cons_outcome
        (Zod.parse_at errorMap Zod.string_ (p ++ [Zod.Index i])%list x)
        (strings_from p (S i) rest)
  end.

(** A computation that leaves the service instance as it found it. *)
Definition KeepsService {A : Type} (m : M A) : Prop :=
  forall w, this (fst (m w)) = this w.

(** A computation that sends at most [n] requests, and only adds to the
    list of the requests sent. *)
Definition Sends {A : Type} (n : nat) (m : M A) : Prop :=
  forall w, exists extra,
    requests (fst (m w)) = (requests w ++ extra)%list
    /\ (List.length extra <= n)%nat.

(** The outcome of the entry point's handler, as the server class wraps
    it. *)
Definition share (c : Completion Payload) : Completion ServerPayload :=
  match c with
  | Return p => Return (Shared p)
  | Throw e => Throw e
  end.

(** The cache is consistent: it holds records only if it has been
    refreshed. *)
Definition Consistent (s : CoinGeckoService) : Prop :=
  lastUpdated s = None -> coins s = [].













(* ================================================================== *)
(** * Properties *)
(* ================================================================== *)

(** ** Slices *)

Lemma slice_forward {A : Type} (l : list A) (s e : Z) :
  0 <= s -> s <= e ->
  JS.slice l (JS.Integer s) (JS.Integer e)
  = firstn (Z.to_nat (e - s)) (skipn (Z.to_nat s) l).
Proof.
  intros Hs He. unfold JS.slice, JS.relative_index, JS.clamp.
  cbn [JS.to_integer_or_infinity].
  destruct (Z.ltb_spec s 0) as [|_]; [lia|].
  destruct (Z.ltb_spec e 0) as [|_]; [lia|].
  set (len := Z.of_nat (List.length l)).
  destruct (Z.le_gt_cases len s) as [Hout|Hin].
  - rewrite (Z.min_r s len) by lia.
    rewrite !skipn_all2 by (subst len; lia).
    now rewrite !firstn_nil.
  - rewrite (Z.min_l s len) by lia.
    destruct (Z.le_gt_cases e len) as [Hfit|Hcut].
    + now rewrite (Z.min_l e len) by lia.
    + rewrite (Z.min_r e len) by lia.
      rewrite !firstn_all2; [reflexivity | |];
        rewrite length_skipn; subst len; lia.
Qed.

Lemma firstn_then_firstn {A : Type} (a b : nat) (l : list A) :
  (firstn a l ++ firstn b (skipn a l))%list = firstn (a + b) l.
Proof.
  transitivity (firstn a (firstn (a + b) l) ++ skipn a (firstn (a + b) l))%list.
  - rewrite firstn_firstn, skipn_firstn_comm.
    replace (Nat.min a (a + b)) with a by lia.
    now replace (a + b - a)%nat with b by lia.
  - apply firstn_skipn.
Qed.

(** The window of page [k + 1] when pages hold [q] records. *)
Lemma slice_window {A : Type} (l : list A) (k q : nat) :
  JS.slice l (JS.Integer (Z.of_nat k * Z.of_nat q))
    (JS.Integer (Z.of_nat k * Z.of_nat q + Z.of_nat q))
  = firstn q (skipn (k * q) l).
Proof.
  rewrite slice_forward by lia.
  f_equal; [lia | f_equal; lia].
Qed.

Lemma slice_length {A : Type} (l : list A) (s q : Z) :
  0 <= s -> 0 <= q ->
  Z.of_nat (List.length (JS.slice l (JS.Integer s) (JS.Integer (s + q)))) <= q.
Proof.
  intros Hs Hq. rewrite slice_forward by lia.
  rewrite length_firstn. lia.
Qed.

Lemma slice_nth_error {A : Type} (l : list A) (s q : Z) (i : nat) :
  0 <= s -> 0 <= q ->
  nth_error (JS.slice l (JS.Integer s) (JS.Integer (s + q))) i
  = if (Z.of_nat i <? q)%Z then nth_error l (Z.to_nat s + i) else None.
Proof.
  intros Hs Hq. rewrite slice_forward by lia.
  rewrite nth_error_firstn, nth_error_skipn.
  destruct (Nat.ltb_spec i (Z.to_nat (s + q - s)));
    destruct (Z.ltb_spec (Z.of_nat i) q); try reflexivity; lia.
Qed.

(** ** Ceiling division *)

Lemma ceil_div_spec (n : nat) (d : Z) :
  0 < d ->
  exists k, JS.ceil_div n (JS.Integer d) = JS.Integer k
            /\ (k - 1) * d < Z.of_nat n <= k * d.
Proof.
  intros Hd. unfold JS.ceil_div. cbn [JS.canon].
  destruct (Z.eqb_spec d 0) as [|_]; [lia|].
  eexists; split; [reflexivity|].
  pose proof (Z.div_mod (- Z.of_nat n) d ltac:(lia)) as E.
  pose proof (Z.mod_pos_bound (- Z.of_nat n) d Hd) as B.
  nia.
Qed.

(** ** Pagination *)

Lemma getCoins_run (w : World) (page pageSize : Z) :
  getCoins (Some (JS.Integer page)) (Some (JS.Integer pageSize)) w
  = (w, Return (JS.slice (coins (this w))
                  (JS.Integer ((page - 1) * pageSize))
                  (JS.Integer ((page - 1) * pageSize + pageSize)))).
Proof. reflexivity. Qed.

Lemma getTotalPages_run (w : World) (pageSize : JS.number) :
  getTotalPages (Some pageSize) w
  = (w, Return (JS.ceil_div (List.length (coins (this w))) pageSize)).
Proof. reflexivity. Qed.

Lemma total_pages_bounds (w : World) (pageSize : Z) :
  0 < pageSize ->
  exists k,
    getTotalPages (Some (JS.Integer pageSize)) w = (w, Return (JS.Integer k))
    /\ (k - 1) * pageSize < Z.of_nat (List.length (coins (this w)))
       <= k * pageSize.
Proof.
  intros Hps. rewrite getTotalPages_run.
  destruct (ceil_div_spec (List.length (coins (this w))) pageSize Hps)
    as (k & E & B).
  exists k. now rewrite E.
Qed.

(** C5, amended. For a page size that is an integer between 1 and 1000,
    [getTotalPages] returns the ceiling of the number of cached records
    divided by the page size (the least [k] with [count <= k * pageSize]),
    and 0 when the cache is empty. *)
Theorem getTotalPages_is_ceiling (w : World) (pageSize : Z) :
  1 <= pageSize <= 1000 ->
  exists k,
    getTotalPages (Some (JS.Integer pageSize)) w = (w, Return (JS.Integer k))
    /\ (k - 1) * pageSize < Z.of_nat (List.length (coins (this w)))
       <= k * pageSize
    /\ (coins (this w) = [] -> k = 0).
Proof.
  intros Hps.
  destruct (total_pages_bounds w pageSize) as (k & E & B); [lia|].
  exists k. repeat split; try assumption; try lia.
  intros Hnil. rewrite Hnil in B. simpl in B. nia.
Qed.

(** C4, amended. For a page that is an integer [>= 1] and a page size that
    is an integer between 1 and 1000, [getCoins] returns, without throwing,
    the records of the snapshot at the indices from [(page-1)*pageSize]
    (included) to [(page-1)*pageSize + pageSize] (excluded); for a page
    after the last one ([page > getTotalPages]) the result is empty. *)
Theorem getCoins_is_slice (w : World) (page pageSize : Z) :
  1 <= page -> 1 <= pageSize <= 1000 ->
  exists result,
    getCoins (Some (JS.Integer page)) (Some (JS.Integer pageSize)) w
    = (w, Return result)
    /\ (forall i : nat,
          nth_error result i
          = if (Z.of_nat i <? pageSize)%Z
            then nth_error (coins (this w))
                   (Z.to_nat ((page - 1) * pageSize) + i)
            else None)
    /\ (forall k,
          getTotalPages (Some (JS.Integer pageSize)) w
          = (w, Return (JS.Integer k)) ->
          k < page -> result = []).
Proof.
  intros Hp Hps. rewrite getCoins_run. eexists; split; [reflexivity|]. split.
  - intros i. apply slice_nth_error; nia.
  - intros k Hk Hlt.
    destruct (total_pages_bounds w pageSize) as (k' & E & B); [lia|].
    rewrite E in Hk. injection Hk as ->.
    rewrite slice_forward by nia.
    rewrite skipn_all2; [apply firstn_nil | nia].
Qed.

Lemma mapM_getCoins (w : World) (pageSize : Z) (pages : list Z) :
  mapM (fun p => getCoins (Some (JS.Integer p)) (Some (JS.Integer pageSize)))
       pages w
  = (w, Return (map (fun p => JS.slice (coins (this w))
                                (JS.Integer ((p - 1) * pageSize))
                                (JS.Integer ((p - 1) * pageSize + pageSize)))
                    pages)).
Proof.
  induction pages as [|p rest IH]; [reflexivity|].
  cbn [mapM map]. unfold bind at 1. rewrite getCoins_run.
  unfold bind at 1. rewrite IH. reflexivity.
Qed.

Lemma pages_concat {A : Type} (l : list A) (q t : nat) :
  List.concat (map (fun p => JS.slice l (JS.Integer ((p - 1) * Z.of_nat q))
                          (JS.Integer ((p - 1) * Z.of_nat q + Z.of_nat q)))
              (map Z.of_nat (seq 1 t)))
  = firstn (t * q) l.
Proof.
  induction t as [|t IH]; [reflexivity|].
  rewrite seq_S, !map_app, concat_app, IH. cbn [map List.concat].
  rewrite app_nil_r.
  replace (Z.of_nat (1 + t) - 1) with (Z.of_nat t) by lia.
  rewrite slice_window, firstn_then_firstn.
  f_equal; lia.
Qed.

(** C2, amended. For a page size that is an integer between 1 and 1000:
    every page whose number is an integer [>= 1] holds at most [pageSize]
    records, and the pages 1 to [getTotalPages(pageSize)], asked for one
    after the other, concatenate to the cached snapshot, in its order. *)
Theorem getCoins_pages_partition (w : World) (pageSize : Z) :
  1 <= pageSize <= 1000 ->
  (forall page, 1 <= page ->
     exists result,
       getCoins (Some (JS.Integer page)) (Some (JS.Integer pageSize)) w
       = (w, Return result)
       /\ Z.of_nat (List.length result) <= pageSize)
  /\ exists (total : nat) (pages : list (list CoinInfo.t)),
       getTotalPages (Some (JS.Integer pageSize)) w
       = (w, Return (JS.Integer (Z.of_nat total)))
       /\ mapM (fun p => getCoins (Some (JS.Integer p))
                           (Some (JS.Integer pageSize)))
               (map Z.of_nat (seq 1 total)) w
          = (w, Return pages)
       /\ List.concat pages = coins (this w).
Proof.
  intros Hps. split.
  - intros page Hp. rewrite getCoins_run. eexists; split; [reflexivity|].
    apply slice_length; nia.
  - destruct (total_pages_bounds w pageSize) as (k & E & B); [lia|].
    assert (0 <= k) by nia.
    exists (Z.to_nat k). eexists. rewrite Z2Nat.id by lia.
    split; [exact E|]. split; [apply mapM_getCoins|].
    replace pageSize with (Z.of_nat (Z.to_nat pageSize)) by lia.
    rewrite pages_concat. apply firstn_all2. nia.
Qed.

(** ** Lookup by name or symbol *)

Lemma matches_iff (query : string) (c : CoinInfo.t) :
  matches (toLowerCase query) c = true <-> Matches query c.
Proof.
  unfold matches, Matches.
  rewrite orb_true_iff, !String.eqb_eq. reflexivity.
Qed.

Lemma find_FirstMatch (query : string) (l : list CoinInfo.t) :
  FirstMatch query l (find (matches (toLowerCase query)) l).
Proof.
  induction l as [|c l IH]; cbn [find].
  - constructor. intros c [].
  - destruct (matches (toLowerCase query) c) eqn:E.
    + apply (first_match_some query [] c l).
      * intros c' [].
      * now apply matches_iff.
    + assert (N : ~ Matches query c)
        by (rewrite <- matches_iff; congruence).
      destruct IH as [l NM | before c' after NB Mc'].
      * constructor. intros c' [<-|I]; auto.
      * apply (first_match_some query (c :: before) c' after); [|assumption].
        intros c'' [<-|I]; auto.
Qed.

Lemma FirstMatch_find (query : string) (l : list CoinInfo.t)
  (m : option CoinInfo.t) :
  FirstMatch query l m -> find (matches (toLowerCase query)) l = m.
Proof.
  intros [l' NM | before c after NB Mc].
  - destruct (find (matches (toLowerCase query)) l') as [c|] eqn:E;
      [|reflexivity].
    apply find_some in E as [I T]. apply matches_iff in T.
    now destruct (NM c I).
  - induction before as [|b before IH]; cbn [app find].
    + apply matches_iff in Mc. now rewrite Mc.
    + destruct (matches (toLowerCase query) b) eqn:E.
      * apply matches_iff in E. destruct (NB b); [now left | assumption].
      * apply IH. intros c' I. apply NB. now right.
Qed.

Lemma findCoinIds_run (w : World) (coinNames : list string) :
  findCoinIds coinNames w
  = (w, Return
          (map (fun query =>
                  {| CoinId.name := query;
                     CoinId.id :=
                       JS.or_null
                         (option_map CoinInfo.id
                            (find (matches (toLowerCase query))
                               (coins (this w)))) |})
               coinNames)).
Proof.
  unfold findCoinIds.
  induction coinNames as [|query rest IH]; [reflexivity|].
  cbn [mapM map]. unfold bind at 1. unfold bind at 1.
  cbn [get ret]. unfold bind at 1. rewrite IH. reflexivity.
Qed.

Lemma or_null_some (s : string) :
  s <> "" -> JS.or_null (Some s) = Some s.
Proof.
  intros N. unfold JS.or_null, JS.truthy.
  destruct (String.eqb_spec s ""); [contradiction | reflexivity].
Qed.

Lemma or_null_not_empty (v : option string) : JS.or_null v <> Some "".
Proof.
  destruct v as [s|]; cbn; [|discriminate].
  unfold JS.truthy. destruct (String.eqb_spec s ""); cbn; congruence.
Qed.

(** C1, amended. [findCoinIds] returns one result per query, in the order
    of the queries; each result carries its query and, where [m] is the
    first record of the snapshot whose lower-cased name or symbol is the
    lower-cased query: the id of [m] when that id is not the empty string,
    and null when there is no such record or its id is empty. *)
Theorem findCoinIds_first_match (w : World) (coinNames : list string) :
  exists results,
    findCoinIds coinNames w = (w, Return results)
    /\ Forall2
         (fun query r =>
            CoinId.name r = query
            /\ exists m,
                 FirstMatch query (coins (this w)) m
                 /\ match m with
                    | None => CoinId.id r = None
                    | Some c =>
                        (CoinInfo.id c <> "" ->
                         CoinId.id r = Some (CoinInfo.id c))
                        /\ (CoinInfo.id c = "" -> CoinId.id r = None)
                    end)
         coinNames results.
Proof.
  rewrite findCoinIds_run. eexists; split; [reflexivity|].
  induction coinNames as [|query rest IH]; cbn [map]; constructor;
    [|exact IH].
  cbn. split; [reflexivity|].
  exists (find (matches (toLowerCase query)) (coins (this w))).
  split; [apply find_FirstMatch|].
  destruct (find _ _) as [c|]; cbn [option_map]; [|reflexivity].
  split.
  - apply or_null_some.
  - intros ->. reflexivity.
Qed.

(** C10. When the first record that answers a query has the empty string
    as its id, [findCoinIds] reports null for that query; and no result
    ever carries the empty string: an id is a non-empty string or null. *)
Theorem findCoinIds_id_never_empty (w : World) (coinNames : list string) :
  exists results,
    findCoinIds coinNames w = (w, Return results)
    /\ Forall2
         (fun query r =>
            forall c,
              FirstMatch query (coins (this w)) (Some c) ->
              CoinInfo.id c = "" -> CoinId.id r = None)
         coinNames results
    /\ (forall r, In r results -> CoinId.id r <> Some "").
Proof.
  rewrite findCoinIds_run. eexists; split; [reflexivity|]. split.
  - induction coinNames as [|query rest IH]; cbn [map]; constructor;
      [|exact IH].
    intros c F E. apply FirstMatch_find in F. cbn. rewrite F. cbn.
    now rewrite E.
  - intros r I. apply in_map_iff in I as (query & <- & _). cbn.
    apply or_null_not_empty.
Qed.

(** ** Read-only queries *)

Lemma query_run (w : World) (q : Query) :
  exists a, query q w = (w, Return a).
Proof.
  destruct q as [page pageSize | coinNames | pageSize | ]; cbn [query].
  - eexists. reflexivity.
  - unfold bind. rewrite findCoinIds_run. eexists. reflexivity.
  - eexists. reflexivity.
  - eexists. reflexivity.
Qed.

(** C9. Any series of calls of [getCoins], [findCoinIds], [getTotalPages]
    and [getLastUpdated], with any arguments, runs to its end and leaves the
    world as it found it, and so does each call of the series: the cached
    list and [lastUpdated] after a call are those before it. *)
Theorem queries_leave_cache_untouched (w : World) (qs : list Query) :
  (exists answers,
     mapM query qs w = (w, Return answers)
     /\ List.length answers = List.length qs)
  /\ Forall
       (fun q =>
          exists a w',
            query q w = (w', Return a)
            /\ coins (this w') = coins (this w)
            /\ lastUpdated (this w') = lastUpdated (this w))
       qs.
Proof.
  split.
  - induction qs as [|q rest (answers & E & L)].
    + exists []. split; reflexivity.
    + destruct (query_run w q) as (a & Eq).
      exists (a :: answers). cbn [mapM]. unfold bind at 1. rewrite Eq.
      unfold bind at 1. rewrite E. cbn. split; [reflexivity | now rewrite L].
  - apply Forall_forall. intros q _.
    destruct (query_run w q) as (a & Eq).
    exists a, w. repeat split. exact Eq.
Qed.

(** ** Refreshing the cache *)

Lemma slice_In {A : Type} (l : list A) (s e : JS.number) (x : A) :
  In x (JS.slice l s e) -> In x l.
Proof.
  unfold JS.slice. intros I.
  set (k := Z.to_nat (JS.relative_index (Z.of_nat (List.length l)) s)) in *.
  set (n := Z.to_nat _) in I.
  rewrite <- (firstn_skipn k l). apply in_or_app. right.
  rewrite <- (firstn_skipn n (skipn k l)). apply in_or_app. now left.
Qed.

Lemma getCoins_same_cache (w w' : World)
  (page pageSize : option JS.number) :
  coins (this w') = coins (this w) ->
  snd (getCoins page pageSize w') = snd (getCoins page pageSize w).
Proof. intros E. unfold getCoins, bind, get, ret. cbn. now rewrite E. Qed.

Lemma findCoinIds_same_cache (w w' : World) (coinNames : list string) :
  coins (this w') = coins (this w) ->
  snd (findCoinIds coinNames w') = snd (findCoinIds coinNames w).
Proof. intros E. rewrite !findCoinIds_run. cbn. now rewrite E. Qed.

(** C3. When the upstream fails the request of [refreshCoinList] (transport
    error, non-success status or unreadable body), the call throws, and the
    cached list and [lastUpdated] are what they were; so [getCoins],
    [findCoinIds] and [getLastUpdated] answer as before the call. *)
Theorem refreshCoinList_failure_keeps_cache (w : World) (e : Thrown) :
  UpstreamFailure (coins_list upstream (requests w) (refresh_request w)) e ->
  exists w',
    refreshCoinList w = (w', Throw e)
    /\ coins (this w') = coins (this w)
    /\ lastUpdated (this w') = lastUpdated (this w)
    /\ (forall page pageSize,
          snd (getCoins page pageSize w') = snd (getCoins page pageSize w))
    /\ (forall coinNames,
          snd (findCoinIds coinNames w') = snd (findCoinIds coinNames w))
    /\ snd (getLastUpdated w') = snd (getLastUpdated w).
Proof.
  intros F.
  assert (exists w', refreshCoinList w = (w', Throw e)
                     /\ this w' = this w) as (w' & E & T).
  { unfold refreshCoinList, try_catch, bind, get, fetch.
    fold (refresh_request w). cbn [this requests].
    remember (coins_list upstream (requests w) (refresh_request w)) as answer.
    destruct F as [e | r Hok | r e Hok Hjson].
    - eexists. split; reflexivity.
    - rewrite Hok. cbn. eexists. split; reflexivity.
    - rewrite Hok. cbn. unfold await. rewrite Hjson.
      eexists. split; reflexivity. }
  exists w'. split; [exact E|].
  assert (C : coins (this w') = coins (this w)) by now rewrite T.
  repeat split.
  - exact C.
  - now rewrite T.
  - intros. now apply getCoins_same_cache.
  - intros. now apply findCoinIds_same_cache.
  - unfold getLastUpdated, get. cbn. now rewrite T.
Qed.

(** The three failures are the only ways in which [refreshCoinList]
    throws. *)
Lemma refreshCoinList_throws_only_on_failure (w w' : World) (e : Thrown) :
  refreshCoinList w = (w', Throw e) ->
  UpstreamFailure (coins_list upstream (requests w) (refresh_request w)) e.
Proof.
  unfold refreshCoinList, try_catch, bind, get, fetch.
  fold (refresh_request w). cbn [this requests].
  destruct (coins_list upstream (requests w) (refresh_request w))
    as [r|e0]; cbn.
  - destruct (ok r) eqn:Hok; cbn.
    + unfold await. destruct (json r) as [body|e1] eqn:Hjson; cbn.
      * discriminate.
      * intros [= _ <-]. now apply body_failure.
    + intros [= _ <-]. now apply status_failure.
  - intros [= _ <-]. apply transport_failure.
Qed.

(** C6. When the upstream answers the request of [refreshCoinList] with a
    success status and a readable body, the call returns, the cached list
    is the list of the body and nothing else, and [lastUpdated] is the time
    read after the request; a record of the old list that the body lacks is
    in no page that [getCoins] returns afterwards, and every id that
    [findCoinIds] reports afterwards is the id of a record of the body. *)
Theorem refreshCoinList_replaces_cache (w : World)
  (r : Response (list CoinInfo.t)) (fresh : list CoinInfo.t) :
  coins_list upstream (requests w) (refresh_request w) = Return r ->
  ok r = true ->
  json r = Return fresh ->
  exists w',
    refreshCoinList w = (w', Return tt)
    /\ coins (this w') = fresh
    /\ lastUpdated (this w')
       = Some (clock upstream (requests w ++ [refresh_request w])%list)
    /\ (forall c page pageSize result,
          In c (coins (this w)) -> ~ In c fresh ->
          getCoins page pageSize w' = (w', Return result) ->
          ~ In c result)
    /\ (forall coinNames results res i,
          findCoinIds coinNames w' = (w', Return results) ->
          In res results -> CoinId.id res = Some i ->
          exists c, In c fresh /\ CoinInfo.id c = i).
Proof.
  intros Hanswer Hok Hjson.
  assert (exists w', refreshCoinList w = (w', Return tt)
                     /\ coins (this w') = fresh
                     /\ lastUpdated (this w')
                        = Some (clock upstream
                                  (requests w ++ [refresh_request w])%list))
    as (w' & E & C & L).
  { unfold refreshCoinList, try_catch, bind, get, fetch.
    fold (refresh_request w). cbn [this requests].
    rewrite Hanswer, Hok. cbn. unfold await. rewrite Hjson.
    eexists. split; [reflexivity|]. split; reflexivity. }
  exists w'. repeat split; try assumption.
  - intros c page pageSize result _ Hnew Hrun Hin. apply Hnew.
    unfold getCoins, bind, get, ret in Hrun. injection Hrun as <-.
    apply slice_In in Hin. now rewrite C in Hin.
  - intros coinNames results res i Hrun Hin Hid.
    rewrite findCoinIds_run in Hrun. injection Hrun as <-.
    apply in_map_iff in Hin as (query & <- & _). cbn in Hid.
    rewrite C in Hid.
    destruct (find (matches (toLowerCase query)) fresh) as [c|] eqn:F;
      [|discriminate].
    exists c. split; [now apply find_some in F|].
    cbn in Hid. destruct (JS.truthy (CoinInfo.id c)); congruence.
Qed.

(** ** OHLC bars *)

Lemma reshape_five (t o h l c : num) :
  reshape [t; o; h; l; c]
  = {| timestamp := Some t; open := Some o; high := Some h;
       low := Some l; close := Some c |}.
Proof. reflexivity. Qed.

Lemma five_elements (row : list num) :
  List.length row = 5%nat -> exists t o h l c, row = [t; o; h; l; c].
Proof.
  destruct row as [|t [|o [|h [|l [|c [|x rest]]]]]]; try discriminate.
  intros _. now exists t, o, h, l, c.
Qed.

Lemma map_reshape_five (rows : list (list num)) :
  Forall (fun row => List.length row = 5%nat) rows ->
  Forall2
    (fun row bar =>
       exists t o h l c,
         row = [t; o; h; l; c]
         /\ bar = {| timestamp := Some t; open := Some o;
                     high := Some h; low := Some l; close := Some c |})
    rows (map reshape rows).
Proof.
  induction 1 as [|row rest Hrow _ IH]; cbn [map]; constructor;
    [|exact IH].
  destruct (five_elements row Hrow) as (t & o & h & l & c & ->).
  exists t, o, h, l, c. split; reflexivity.
Qed.

(** C8. When the upstream answers the request of [getOHLCData] with a
    success status and a body that is a sequence of rows of five positions,
    the call returns a sequence of as many records in the same order, the
    record of the row [[timestamp, open, high, low, close]] having these
    five values in its fields of the same names. *)
Theorem getOHLCData_reshapes (w : World) (id vs_currency : string)
  (from to : JS.number) (interval : string)
  (r : Response (list (list num))) (rows : list (list num)) :
  ohlc_range upstream (requests w)
    (ohlc_request w id vs_currency from to interval) = Return r ->
  ok r = true ->
  json r = Return rows ->
  Forall (fun row => List.length row = 5%nat) rows ->
  exists w' bars,
    getOHLCData id vs_currency from to interval w = (w', Return bars)
    /\ Forall2
         (fun row bar =>
            exists t o h l c,
              row = [t; o; h; l; c]
              /\ bar = {| timestamp := Some t; open := Some o;
                          high := Some h; low := Some l; close := Some c |})
         rows bars.
Proof.
  intros Hanswer Hok Hjson Hrows.
  unfold getOHLCData, try_catch, bind, get, fetch, console_error.
  cbn [this requests]. fold (ohlc_request w id vs_currency from to interval).
  rewrite Hanswer, Hok. cbn. unfold await. rewrite Hjson.
  eexists. eexists. split; [reflexivity|].
  now apply map_reshape_five.
Qed.

(** ** The dispatcher *)











Lemma isNaN_spec (n : JS.number) : JS.isNaN n = true <-> n = JS.NaN.
Proof.
  destruct n as [z|[s|s| |s m e]]; cbn; split; try discriminate; reflexivity.
Qed.

Lemma isNaN_false (n : JS.number) : JS.isNaN n = false <-> n <> JS.NaN.
Proof.
  rewrite <- isNaN_spec. destruct (JS.isNaN n); split; congruence.
Qed.

Lemma ltb_spec (x y : JS.number) : JS.ltb x y = true <-> Less x y.
Proof.
  unfold JS.ltb, Less.
  destruct (JS.canon x), (JS.canon y); try reflexivity. apply Z.ltb_lt.
Qed.

Lemma ltb_false (x y : JS.number) : JS.ltb x y = false <-> ~ Less x y.
Proof.
  rewrite <- ltb_spec. destruct (JS.ltb x y); split; congruence.
Qed.

(** A number above 1000 is not NaN, and is not below 1. *)
Lemma above_not_nan (n : JS.number) (bound : Z) :
  JS.gtb n (JS.Integer bound) = true -> JS.isNaN n = false.
Proof.
  destruct n as [z|[s|s| |s m e]]; try reflexivity.
  unfold JS.gtb, JS.ltb. cbn [JS.canon JS.of_double JS.integer_value].
  cbn [JS.to_double]. unfold SFltb.
  destruct (binary_normalize _ _ _ _ _); cbn; discriminate.
Qed.

Lemma below_not_nan (n : JS.number) (bound : Z) :
  JS.ltb n (JS.Integer bound) = true -> JS.isNaN n = false.
Proof.
  destruct n as [z|[s|s| |s m e]]; try reflexivity.
  unfold JS.ltb. cbn. discriminate.
Qed.

Lemma above_1000_not_below_1 (n : JS.number) :
  JS.gtb n (JS.Integer 1000) = true -> JS.ltb n (JS.Integer 1) = false.
Proof.
  unfold JS.gtb, JS.ltb. cbn [JS.canon].
  destruct (JS.canon n) as [z|f].
  - intros H. apply Z.ltb_lt in H. apply Z.ltb_ge. lia.
  - cbn [JS.to_double].
    replace (binary_normalize JS.prec JS.emax 1000 0 false)
      with (S754_finite false 8796093022208000 (-43))
      by (vm_compute; reflexivity).
    replace (binary_normalize JS.prec JS.emax 1 0 false)
      with (S754_finite false 4503599627370496 (-52))
      by (vm_compute; reflexivity).
    unfold SFltb, SFcompare.
    destruct f as [s|s| |s m e]; try discriminate.
    + destruct s; [discriminate | reflexivity].
    + destruct s; [discriminate|].
      destruct (Z.compare_spec (-43) e) as [E|L|G]; try discriminate;
        intros _; destruct (Z.compare_spec e (-52)); try reflexivity; lia.
Qed.

(** A page size above 1000 never passes the schema of [get-coins]: the
    issue names the field [pageSize] and the bound. *)
Lemma get_coins_page_size_above_1000 (fields : list (string * Value))
  (n : JS.number) :
  property fields "pageSize" = VNumber n ->
  Less (JS.Integer 1000) n ->
  exists issues,
    Zod.safeParse errorMap GetCoinsArgumentsSchema (VObject fields)
    = inl issues
    /\ In (Zod.issue errorMap (Zod.too_big 1000) [Zod.Key "pageSize"]) issues.
Proof.
  intros Hfield Hn. apply ltb_spec in Hn. fold (JS.gtb n (JS.Integer 1000)) in Hn.
  unfold Zod.safeParse. cbn. rewrite Hfield.
  rewrite (above_not_nan n 1000 Hn), (above_1000_not_below_1 n Hn), Hn. cbn.
  destruct (match property fields "page" with
            | VUndefined => _
            | _ => _
            end) as [i|x]; cbn; eexists; split; try reflexivity.
  - apply in_or_app. right. now left.
  - now left.
Qed.









(* ================================================================== *)
(** * Further properties of the cache, the client and the dispatchers *)
(* ================================================================== *)

(** ** More on pagination *)

Lemma clamp_range (len k : Z) :
  0 <= len -> 0 <= JS.clamp len k <= len.
Proof.
  intros H. unfold JS.clamp. destruct (Z.ltb_spec k 0); lia.
Qed.

Lemma relative_index_range (len : Z) (k : JS.number) :
  0 <= len -> 0 <= JS.relative_index len k <= len.
Proof.
  intros H. unfold JS.relative_index.
  destruct (JS.to_integer_or_infinity k); [now apply clamp_range | lia | lia].
Qed.

Lemma slice_backward {A : Type} (l : list A) (s e : JS.number) :
  JS.relative_index (Z.of_nat (List.length l)) e
  <= JS.relative_index (Z.of_nat (List.length l)) s ->
  JS.slice l s e = [].
Proof.
  intros H. unfold JS.slice.
  replace (Z.to_nat _) with O by lia. reflexivity.
Qed.

Lemma slice_count {A : Type} (l : list A) (s q : Z) :
  0 <= s -> 0 <= q ->
  Z.of_nat (List.length (JS.slice l (JS.Integer s) (JS.Integer (s + q))))
  = Z.min q (Z.max 0 (Z.of_nat (List.length l) - s)).
Proof.
  intros Hs Hq. rewrite slice_forward by lia.
  rewrite length_firstn, length_skipn. lia.
Qed.

(** X1. For a page and a page size that are integers: every page before
    the last one is full, and the last one is not empty. *)
Theorem getCoins_full_pages (w : World) (page pageSize total : Z) :
  1 <= pageSize -> 1 <= page ->
  getTotalPages (Some (JS.Integer pageSize)) w
  = (w, Return (JS.Integer total)) ->
  exists result,
    getCoins (Some (JS.Integer page)) (Some (JS.Integer pageSize)) w
    = (w, Return result)
    /\ (page < total -> Z.of_nat (List.length result) = pageSize)
    /\ (page = total -> 1 <= Z.of_nat (List.length result) <= pageSize).
Proof.
  intros Hps Hp Ht.
  destruct (total_pages_bounds w pageSize) as (k & E & B); [lia|].
  rewrite E in Ht. injection Ht as <-.
  rewrite getCoins_run. eexists; split; [reflexivity|].
  rewrite slice_count by nia. split; intros; nia.
Qed.

(** X2. For a page size that is an integer: the record stored at index [i]
    is found on page [i / pageSize + 1], at position [i mod pageSize]. *)
Theorem getCoins_locates_record (w : World) (pageSize : Z) (i : nat)
  (c : CoinInfo.t) :
  1 <= pageSize ->
  nth_error (coins (this w)) i = Some c ->
  exists result,
    getCoins (Some (JS.Integer (Z.of_nat i / pageSize + 1)))
      (Some (JS.Integer pageSize)) w
    = (w, Return result)
    /\ nth_error result (Z.to_nat (Z.of_nat i mod pageSize)) = Some c.
Proof.
  intros Hps Hc. rewrite getCoins_run. eexists; split; [reflexivity|].
  pose proof (Z.div_mod (Z.of_nat i) pageSize ltac:(lia)) as D.
  pose proof (Z.mod_pos_bound (Z.of_nat i) pageSize ltac:(lia)) as M.
  assert (0 <= Z.of_nat i / pageSize) by (apply Z.div_pos; lia).
  rewrite slice_nth_error by nia.
  destruct (Z.ltb_spec (Z.of_nat (Z.to_nat (Z.of_nat i mod pageSize))) pageSize);
    [|lia].
  rewrite <- Hc. f_equal. nia.
Qed.

(** X3. Page 0, and any page of size 0, is empty. *)
Theorem getCoins_degenerate (w : World) (page pageSize : Z) :
  page = 0 \/ pageSize = 0 ->
  getCoins (Some (JS.Integer page)) (Some (JS.Integer pageSize)) w
  = (w, Return []).
Proof.
  intros H. rewrite getCoins_run. do 2 f_equal.
  apply slice_backward.
  set (len := Z.of_nat (List.length (coins (this w)))).
  assert (L : 0 <= len) by (subst len; lia).
  destruct H as [-> | ->].
  - replace ((0 - 1) * pageSize + pageSize) with 0 by lia.
    pose proof (relative_index_range len
                  (JS.Integer ((0 - 1) * pageSize)) L).
    assert (JS.relative_index len (JS.Integer 0) = 0) as ->
      by (unfold JS.relative_index, JS.clamp; cbn; lia).
    lia.
  - replace ((page - 1) * 0 + 0) with ((page - 1) * 0) by lia. lia.
Qed.

(** X4. A page size that is a negative integer [-n]: the first page is the
    snapshot without its last [n] records, and every later page whose number
    is an integer is empty. *)
Theorem getCoins_negative_pageSize (w : World) (page n : Z) :
  0 < n -> 1 <= page ->
  getCoins (Some (JS.Integer page)) (Some (JS.Integer (- n))) w
  = (w, Return (if (page =? 1)%Z
                then firstn (List.length (coins (this w)) - Z.to_nat n)
                       (coins (this w))
                else [])).
Proof.
  intros Hn Hp. rewrite getCoins_run. do 2 f_equal.
  set (l := coins (this w)).
  destruct (Z.eqb_spec page 1) as [->|Hne].
  - replace ((1 - 1) * - n) with 0 by lia.
    replace (0 + - n) with (- n) by lia.
    unfold JS.slice, JS.relative_index, JS.clamp.
    cbn [JS.to_integer_or_infinity].
    destruct (Z.ltb_spec (- n) 0) as [_|]; [|lia].
    destruct (Z.ltb_spec 0 0) as [|_]; [lia|].
    rewrite Z.min_l by lia. cbn [Z.to_nat skipn]. f_equal. lia.
  - apply slice_backward. unfold JS.relative_index, JS.clamp.
    cbn [JS.to_integer_or_infinity].
    destruct (Z.ltb_spec ((page - 1) * - n + - n) 0) as [_|]; [|nia].
    destruct (Z.ltb_spec ((page - 1) * - n) 0) as [_|]; [|nia].
    nia.
Qed.

(** X5. For a page size of at least 1: the page count is between 0 and the
    number of records, it is 0 exactly on an empty cache, and a larger page
    size never gives more pages. *)
Theorem getTotalPages_monotone (w : World) (pageSize pageSize' : Z) :
  1 <= pageSize <= pageSize' ->
  exists k k',
    getTotalPages (Some (JS.Integer pageSize)) w
    = (w, Return (JS.Integer k))
    /\ getTotalPages (Some (JS.Integer pageSize')) w
       = (w, Return (JS.Integer k'))
    /\ 0 <= k' <= k
    /\ k <= Z.of_nat (List.length (coins (this w)))
    /\ (k = 0 <-> coins (this w) = []).
Proof.
  intros H.
  destruct (total_pages_bounds w pageSize) as (k & E & B); [lia|].
  destruct (total_pages_bounds w pageSize') as (k' & E' & B'); [lia|].
  set (len := Z.of_nat (List.length (coins (this w)))) in *.
  assert (0 <= len) by (subst len; lia).
  assert (0 <= k) by nia.
  assert (0 <= k') by nia.
  assert (k * pageSize <= k * pageSize') by nia.
  assert (k' - 1 < k) by nia.
  exists k, k'. split; [exact E|]. split; [exact E'|].
  split; [lia|]. split; [nia|]. split.
  - intros ->. subst len.
    destruct (coins (this w)); [reflexivity | cbn in B; lia].
  - intros Hnil. subst len. rewrite Hnil in B. cbn in B. nia.
Qed.

(** ** More on the lookup *)

(** X6. Queries that are the same once lower-cased get the same ids. *)
Theorem findCoinIds_case_insensitive (w : World)
  (coinNames coinNames' : list string) :
  map toLowerCase coinNames = map toLowerCase coinNames' ->
  exists results results',
    findCoinIds coinNames w = (w, Return results)
    /\ findCoinIds coinNames' w = (w, Return results')
    /\ map CoinId.id results = map CoinId.id results'.
Proof.
  intros H. rewrite !findCoinIds_run. do 2 eexists.
  split; [reflexivity|]. split; [reflexivity|].
  rewrite !map_map. cbn.
  set (g := fun q => JS.or_null (option_map CoinInfo.id
                                   (find (matches q) (coins (this w))))).
  change (map (fun x => g (toLowerCase x)) coinNames
          = map (fun x => g (toLowerCase x)) coinNames').
  rewrite <- !(map_map toLowerCase g). now rewrite H.
Qed.

(** X7. Each query is answered on its own: the results for two lists of queries
    put end to end are the results for the first followed by those for the
    second. *)
Theorem findCoinIds_app (w : World) (coinNames coinNames' : list string) :
  exists results results',
    findCoinIds coinNames w = (w, Return results)
    /\ findCoinIds coinNames' w = (w, Return results')
    /\ findCoinIds (coinNames ++ coinNames')%list w
       = (w, Return (results ++ results')%list).
Proof.
  rewrite !findCoinIds_run. do 2 eexists.
  split; [reflexivity|]. split; [reflexivity|]. now rewrite map_app.
Qed.

Lemma find_app_first {A : Type} (f : A -> bool) (l extra : list A) (x : A) :
  find f l = Some x -> find f (l ++ extra)%list = Some x.
Proof.
  induction l as [|y l IH]; cbn; [discriminate|].
  destruct (f y); [trivial | exact IH].
Qed.

(** X8. Records added at the end of the snapshot never change an id that was
    already found. *)
Theorem findCoinIds_stable_under_append (w w' : World)
  (extra : list CoinInfo.t) (coinNames : list string) :
  coins (this w') = (coins (this w) ++ extra)%list ->
  exists results results',
    findCoinIds coinNames w = (w, Return results)
    /\ findCoinIds coinNames w' = (w', Return results')
    /\ Forall2
         (fun r r' =>
            CoinId.name r = CoinId.name r'
            /\ forall i, CoinId.id r = Some i -> CoinId.id r' = Some i)
         results results'.
Proof.
  intros H. rewrite !findCoinIds_run, H. do 2 eexists.
  split; [reflexivity|]. split; [reflexivity|].
  induction coinNames as [|query rest IH]; cbn [map]; constructor;
    [|exact IH].
  cbn. split; [reflexivity|]. intros i.
  destruct (find (matches (toLowerCase query)) (coins (this w))) as [c|] eqn:F;
    [|discriminate].
  now rewrite (find_app_first _ _ extra _ F).
Qed.

(** ** More on the calls of the upstream API *)

(** X9. [refreshCoinList] sends one request, whatever comes of it, keeps the
    API key, and writes to the console only the error it throws. *)
Theorem refreshCoinList_sends_one_request (w : World) :
  exists w' c,
    refreshCoinList w = (w', c)
    /\ requests w' = (requests w ++ [refresh_request w])%list
    /\ apiKey (this w') = apiKey (this w)
    /\ match c with
       | Return _ => console w' = console w
       | Throw e =>
           console w'
           = (console w ++ [[LogString "Error refreshing coin cache:";
                             LogThrown e]])%list
       end.
Proof.
  unfold refreshCoinList, try_catch, bind, get, fetch.
  fold (refresh_request w). cbn [this requests].
  destruct (coins_list upstream (requests w) (refresh_request w)) as [r|e]; cbn.
  - destruct (ok r); cbn.
    + unfold await. destruct (json r) as [body|e]; cbn;
        do 2 eexists; repeat split.
    + do 2 eexists; repeat split.
  - do 2 eexists; repeat split.
Qed.

Lemma getHistoricalData_cases (w : World) (id vs_currency : string)
  (from to : JS.number) (interval : option string) :
  exists w' c,
    getHistoricalData id vs_currency from to interval w = (w', c)
    /\ this w' = this w
    /\ requests w'
       = (requests w
          ++ [historical_request w id vs_currency from to interval])%list
    /\ (forall r data,
          market_chart_range upstream (requests w)
            (historical_request w id vs_currency from to interval) = Return r ->
          ok r = true -> json r = Return data ->
          c = Return data /\ console w' = console w)
    /\ (forall e,
          UpstreamFailure
            (market_chart_range upstream (requests w)
               (historical_request w id vs_currency from to interval)) e ->
          c = Throw e
          /\ console w'
             = (console w ++ [[LogString "Error fetching historical data:";
                               LogThrown e]])%list).
Proof.
  assert (U : forall u0,
             match interval with
             | Some i => if JS.truthy i then u0 ++ "&interval=" ++ i else u0
             | None => u0
             end
             = u0 ++ match interval with
                     | Some i => if JS.truthy i then "&interval=" ++ i else ""
                     | None => ""
                     end).
  { intros u0. assert (N : forall s, s ++ "" = s)
      by (induction s as [|a s IH]; cbn; [reflexivity | now rewrite IH]).
    destruct interval as [i|]; [destruct (JS.truthy i)|];
      now rewrite ?N. }
  unfold getHistoricalData, try_catch, bind, get, fetch.
  rewrite U. fold (historical_request w id vs_currency from to interval).
  cbn [this requests].
  remember (market_chart_range upstream (requests w)
              (historical_request w id vs_currency from to interval))
    as answer eqn:EA.
  clear EA U.
  destruct answer as [r|e]; cbn.
  - destruct (ok r) eqn:Hok; cbn.
    + unfold await. destruct (json r) as [body|e] eqn:Hjson; cbn;
        do 2 eexists; (split; [reflexivity|]);
        (split; [reflexivity|]); (split; [reflexivity|]); split.
      * intros r' d [= <-] _ Hj. rewrite Hjson in Hj. injection Hj as <-.
        split; reflexivity.
      * intros e' F. inversion F; subst; congruence.
      * intros r' d [= <-] _ Hj. congruence.
      * intros e' F. inversion F; subst; [congruence|].
        assert (e' = e) as -> by congruence. split; reflexivity.
    + do 2 eexists. (split; [reflexivity|]).
      (split; [reflexivity|]); (split; [reflexivity|]); split.
      * intros r' d [= <-] Hok'. congruence.
      * intros e' F. inversion F; subst; [|congruence]. split; reflexivity.
  - do 2 eexists. (split; [reflexivity|]).
    (split; [reflexivity|]); (split; [reflexivity|]); split.
    + discriminate.
    + intros e' F. inversion F; subst. split; reflexivity.
Qed.

(** X10. [getHistoricalData] sends one request and leaves the service as it
    was; a readable body of a success response is returned as it is, and a
    failure of the upstream is thrown, after a line on the console. *)
Theorem getHistoricalData_outcome (w : World) (id vs_currency : string)
  (from to : JS.number) (interval : option string) :
  exists w' c,
    getHistoricalData id vs_currency from to interval w = (w', c)
    /\ this w' = this w
    /\ requests w'
       = (requests w
          ++ [historical_request w id vs_currency from to interval])%list
    /\ (forall r data,
          market_chart_range upstream (requests w)
            (historical_request w id vs_currency from to interval) = Return r ->
          ok r = true -> json r = Return data ->
          c = Return data /\ console w' = console w)
    /\ (forall e,
          UpstreamFailure
            (market_chart_range upstream (requests w)
               (historical_request w id vs_currency from to interval)) e ->
          c = Throw e
          /\ console w'
             = (console w ++ [[LogString "Error fetching historical data:";
                               LogThrown e]])%list).
Proof. apply getHistoricalData_cases. Qed.

(** X11. [getOHLCData] sends one request and leaves the service as it was.  A
    response whose status is not a success and whose body can be read is
    thrown as an error that carries the status and the body, after four
    lines on the console (and one before the request); any other failure -
    of the request, of the reading of the body of a response that is not a
    success, of the decoding of the body of a success - is thrown as it is,
    after one line on the console; the rows of a readable body are all
    reshaped. *)
Theorem getOHLCData_outcome (w : World) (id vs_currency : string)
  (from to : JS.number) (interval : string) :
  exists w' c,
    getOHLCData id vs_currency from to interval w = (w', c)
    /\ this w' = this w
    /\ requests w'
       = (requests w ++ [ohlc_request w id vs_currency from to interval])%list
    /\ (forall r body,
          ohlc_range upstream (requests w)
            (ohlc_request w id vs_currency from to interval) = Return r ->
          ok r = false ->
          text r = Return body ->
          let e := Error ("API request failed: " ++ JS.toString (status r)
                          ++ " " ++ statusText r ++ " - " ++ body) in
          c = Throw e
          /\ console w'
             = (console w
                ++ [[LogString
                       ("Making request to: "
                        ++ url (ohlc_request w id vs_currency from to interval))];
                    [LogString ("API Response Status: "
                                ++ JS.toString (status r) ++ " "
                                ++ statusText r)];
                    [LogString "API Response Headers:";
                     LogHeaders (response_headers r)];
                    [LogString "API Response Body:"; LogString body];
                    [LogString "Error fetching OHLC data:"; LogThrown e]])%list)
    /\ (forall r rows,
          ohlc_range upstream (requests w)
            (ohlc_request w id vs_currency from to interval) = Return r ->
          ok r = true -> json r = Return rows ->
          c = Return (map reshape rows)
          /\ List.length (console w') = S (List.length (console w)))
    /\ (forall e,
          ohlc_range upstream (requests w)
            (ohlc_request w id vs_currency from to interval) = Throw e
          \/ (exists r,
                ohlc_range upstream (requests w)
                  (ohlc_request w id vs_currency from to interval) = Return r
                /\ ok r = true /\ json r = Throw e)
          \/ (exists r,
                ohlc_range upstream (requests w)
                  (ohlc_request w id vs_currency from to interval) = Return r
                /\ ok r = false /\ text r = Throw e) ->
          c = Throw e
          /\ console w'
             = (console w
                ++ [[LogString
                       ("Making request to: "
                        ++ url (ohlc_request w id vs_currency from to interval))];
                    [LogString "Error fetching OHLC data:";
                     LogThrown e]])%list).
Proof.
  unfold getOHLCData, try_catch, bind, get, fetch, console_error.
  cbn [this requests console].
  fold (ohlc_request w id vs_currency from to interval).
  remember (ohlc_range upstream (requests w)
              (ohlc_request w id vs_currency from to interval))
    as answer eqn:EA.
  clear EA.
  destruct answer as [r|e]; cbn.
  - destruct (ok r) eqn:Hok; cbn.
    + unfold await. destruct (json r) as [rows|e] eqn:Hjson; cbn;
        do 2 eexists; (split; [reflexivity|]);
        (split; [reflexivity|]); (split; [reflexivity|]);
        (split; [|split]).
      * intros r' body [= <-] Hok'. congruence.
      * intros r' rows' [= <-] _ Hj. rewrite Hjson in Hj. injection Hj as <-.
        split; [reflexivity|]. cbn [console]. rewrite !length_app. cbn. lia.
      * intros e [E | [(r' & [= <-] & _ & Hj) | (r' & [= <-] & Hok' & _)]];
          congruence.
      * intros r' body [= <-] Hok'. congruence.
      * intros r' rows' [= <-] _ Hj. congruence.
      * intros e' [E | [(r' & [= <-] & _ & Hj) | (r' & [= <-] & Hok' & _)]];
          try congruence.
        assert (e' = e) as -> by congruence.
        split; [reflexivity|]. cbn. rewrite <- !app_assoc. reflexivity.
    + unfold await. destruct (text r) as [body|e] eqn:Htext; cbn;
        do 2 eexists; (split; [reflexivity|]);
        (split; [reflexivity|]); (split; [reflexivity|]);
        (split; [|split]).
      * intros r' body' [= <-] _ Ht. rewrite Htext in Ht.
        injection Ht as <-. cbn. split; [reflexivity|].
        rewrite <- !app_assoc. reflexivity.
      * intros r' rows [= <-] Hok'. congruence.
      * intros e' [E | [(r' & [= <-] & Hok' & _) | (r' & [= <-] & _ & Ht)]];
          congruence.
      * intros r' body' [= <-] _ Ht. congruence.
      * intros r' rows [= <-] Hok'. congruence.
      * intros e' [E | [(r' & [= <-] & Hok' & _) | (r' & [= <-] & _ & Ht)]];
          try congruence.
        assert (e' = e) as -> by congruence.
        split; [reflexivity|]. cbn. rewrite <- !app_assoc. reflexivity.
  - do 2 eexists. (split; [reflexivity|]).
    (split; [reflexivity|]); (split; [reflexivity|]); (split; [|split]).
    + discriminate.
    + discriminate.
    + intros e' [[= <-] | [(r' & E & _) | (r' & E & _)]]; try discriminate.
      split; [reflexivity|]. cbn. rewrite <- !app_assoc. reflexivity.
Qed.

Lemma reshape_firstn (row : list num) :
  reshape row = reshape (firstn 5 row).
Proof.
  unfold reshape, JS.at_. now rewrite !nth_error_firstn.
Qed.

Lemma map_reshape_any (rows : list (list num)) :
  Forall2
    (fun row bar =>
       bar = reshape (firstn 5 row)
       /\ (timestamp num bar = None <-> row = [])
       /\ ((List.length row <= 4)%nat -> close num bar = None))
    rows (map reshape rows).
Proof.
  induction rows as [|row rest IH]; cbn [map]; constructor; [|exact IH].
  split; [apply reshape_firstn|]. split.
  - destruct row; cbn; split; congruence.
  - intros H. unfold reshape, JS.at_. cbn [close].
    apply nth_error_None. lia.
Qed.

(** X12. Rows of any length are reshaped: positions after the fifth are dropped,
    an empty row is the only one without a timestamp, and a row of fewer
    than five positions gives a record without its [close]. *)
Theorem getOHLCData_any_rows (w : World) (id vs_currency : string)
  (from to : JS.number) (interval : string)
  (r : Response (list (list num))) (rows : list (list num)) :
  ohlc_range upstream (requests w)
    (ohlc_request w id vs_currency from to interval) = Return r ->
  ok r = true ->
  json r = Return rows ->
  exists w' bars,
    getOHLCData id vs_currency from to interval w = (w', Return bars)
    /\ Forall2
         (fun row bar =>
            bar = reshape (firstn 5 row)
            /\ (timestamp num bar = None <-> row = [])
            /\ ((List.length row <= 4)%nat -> close num bar = None))
         rows bars.
Proof.
  intros Hanswer Hok Hjson.
  unfold getOHLCData, try_catch, bind, get, fetch, console_error.
  cbn [this requests]. fold (ohlc_request w id vs_currency from to interval).
  rewrite Hanswer, Hok. cbn. unfold await. rewrite Hjson.
  do 2 eexists. split; [reflexivity|]. apply map_reshape_any.
Qed.

(** ** More on validation *)

Lemma parse_at_object {A : Type} (shape : Zod.Shape A)
  (p : list Zod.PathItem) (fields : list (string * Value)) :
  Zod.parse_at errorMap (Zod.object shape) p (VObject fields)
  = Zod.parse_shape errorMap shape p fields.
Proof. reflexivity. Qed.

Lemma parse_shape_field {A B : Type} (key : string) (t : Zod.ZodType A)
  (rest : Zod.Shape B) (p : list Zod.PathItem)
  (fields : list (string * Value)) :
  Zod.parse_shape errorMap (Zod.field key t rest) p fields
  = Zod.both (Zod.parse_at errorMap t (p ++ [Zod.Key key])%list
                (property fields key))
             (Zod.parse_shape errorMap rest p fields).
Proof. reflexivity. Qed.

Lemma both_inr {A B : Type} (a : Zod.Outcome A) (b : Zod.Outcome B)
  (x : A) (y : B) :
  Zod.both a b = inr (x, y) <-> a = inr x /\ b = inr y.
Proof.
  destruct a, b; cbn; split; try discriminate;
    try (intros [? ?]; discriminate).
  - now intros [= -> ->].
  - now intros [[= ->] [= ->]].
Qed.

Lemma optional_min_accepts (lo : Z) (p : list Zod.PathItem) (v : Value)
  (out : option JS.number) :
  Zod.parse_at errorMap (Zod.optional (Zod.number [Zod.min lo])) p v = inr out
  <-> optional_between lo None v out.
Proof.
  destruct v; cbn; try (split; [discriminate | now destruct out]).
  - destruct out; split; try discriminate; try contradiction; trivial.
  - destruct out as [n'|].
    + rewrite <- isNaN_false, <- ltb_false.
      destruct (JS.isNaN n), (JS.ltb n (JS.Integer lo)); cbn;
        split; try discriminate;
        try (intros (_ & ? & ? & _); discriminate).
      * intros [= ->]. now repeat split.
      * now intros (-> & _).
    + split; [|contradiction].
      destruct (JS.isNaN n), (JS.ltb n (JS.Integer lo)); discriminate.
Qed.

Lemma optional_min_max_accepts (lo hi : Z) (p : list Zod.PathItem) (v : Value)
  (out : option JS.number) :
  Zod.parse_at errorMap (Zod.optional (Zod.number [Zod.min lo; Zod.max hi]))
    p v = inr out
  <-> optional_between lo (Some hi) v out.
Proof.
  destruct v; cbn; try (split; [discriminate | now destruct out]).
  - destruct out; split; try discriminate; try contradiction; trivial.
  - destruct out as [n'|].
    + rewrite <- isNaN_false, <- !ltb_false.
      fold (JS.gtb n (JS.Integer hi)).
      destruct (JS.isNaN n), (JS.ltb n (JS.Integer lo)),
        (JS.gtb n (JS.Integer hi)); cbn;
        split; try discriminate;
        try (intros (_ & ? & ? & ?); discriminate).
      * intros [= ->]. now repeat split.
      * now intros (-> & _).
    + split; [|contradiction].
      destruct (JS.isNaN n), (JS.ltb n (JS.Integer lo)),
        (JS.gtb n (JS.Integer hi)); discriminate.
Qed.

Lemma accepts_get_coins (args : Value)
  (page pageSize : option JS.number) :
  Zod.safeParse errorMap GetCoinsArgumentsSchema args
  = inr (page, (pageSize, tt))
  <-> exists fields,
        args = VObject fields
        /\ optional_between 1 None (property fields "page") page
        /\ optional_between 1 (Some 1000) (property fields "pageSize") pageSize.
Proof.
  unfold Zod.safeParse, GetCoinsArgumentsSchema.
  destruct args as [| | b | z | s | items | fields];
    try (cbn; split; [discriminate | intros (f & E & _); discriminate]).
  rewrite parse_at_object, !parse_shape_field.
  rewrite both_inr, both_inr, optional_min_accepts, optional_min_max_accepts.
  split.
  - intros (Hp & Hs & _). now exists fields.
  - intros (f & [= <-] & Hp & Hs). repeat split; assumption.
Qed.

(** X13. The schema of [get-coins] accepts exactly the objects whose [page] is
    absent or a number that is at least 1 and whose [pageSize] is absent or a
    number from 1 to 1000 (a number other than NaN, whole or not); what is
    not an object is rejected, the absent bag too. *)
Theorem GetCoinsArgumentsSchema_accepts (args : Value)
  (page pageSize : option JS.number) :
  Zod.safeParse errorMap GetCoinsArgumentsSchema args
  = inr (page, (pageSize, tt))
  <-> exists fields,
        args = VObject fields
        /\ optional_between 1 None (property fields "page") page
        /\ optional_between 1 (Some 1000) (property fields "pageSize") pageSize.
Proof. apply accepts_get_coins. Qed.

(** X14. Properties that the schema does not declare play no part in
    validation. *)
Theorem parse_ignores_undeclared_keys {A : Type} (shape : Zod.Shape A)
  (fields fields' : list (string * Value)) :
  (forall k, In k (Zod.keys shape) -> property fields k = property fields' k) ->
  Zod.safeParse errorMap (Zod.object shape) (VObject fields)
  = Zod.safeParse errorMap (Zod.object shape) (VObject fields').
Proof.
  unfold Zod.safeParse. cbn [Zod.parse_at].
  generalize (@nil Zod.PathItem) as p.
  induction shape as [|B C key t rest IH]; intros p H; [reflexivity|].
  cbn [Zod.parse_shape].
  rewrite (H key) by now left.
  rewrite IH; [reflexivity|]. intros k I. apply H. now right.
Qed.

(** X15. Validation reports every issue, not only the first: a page below 1
    together with a page size above 1000, whole or not, gives two issues, in
    the order of the fields. *)
Theorem GetCoinsArgumentsSchema_reports_both (fields : list (string * Value))
  (page pageSize : JS.number) :
  property fields "page" = VNumber page ->
  property fields "pageSize" = VNumber pageSize ->
  Less page (JS.Integer 1) -> Less (JS.Integer 1000) pageSize ->
  Zod.safeParse errorMap GetCoinsArgumentsSchema (VObject fields)
  = inl [Zod.issue errorMap (Zod.too_small 1) [Zod.Key "page"];
         Zod.issue errorMap (Zod.too_big 1000) [Zod.Key "pageSize"]].
Proof.
  intros Hp Hs Hlo Hhi. apply ltb_spec in Hlo, Hhi.
  fold (JS.gtb pageSize (JS.Integer 1000)) in Hhi.
  unfold Zod.safeParse. cbn. rewrite Hp, Hs.
  rewrite (below_not_nan page 1 Hlo), Hlo.
  rewrite (above_not_nan pageSize 1000 Hhi),
    (above_1000_not_below_1 pageSize Hhi), Hhi.
  reflexivity.
Qed.

(** The loop of [z.array(z.string())] over the items, from index [i]. *)
Lemma array_of_strings_accepts (p : list Zod.PathItem) (names : list string) :
  Zod.parse_at errorMap (Zod.array Zod.string_) p
    (VArray (map VString names)) = inr names.
Proof.
  cbn. generalize O.
  induction names as [|s rest IH]; intros i; [reflexivity|].
  cbn [map]. rewrite IH. reflexivity.
Qed.

Lemma array_of_strings_loop (p : list Zod.PathItem) (items : list Value) :
  Zod.parse_at errorMap (Zod.array Zod.string_) p (VArray items)
  = strings_from p O items.
Proof.
  cbn [Zod.parse_at]. generalize O.
  induction items as [|x rest IH]; intros i; [reflexivity|].
  cbn [strings_from]. now rewrite <- IH.
Qed.

Lemma strings_from_rejects (p : list Zod.PathItem) (items : list Value)
  (i base : nat) (v : Value) :
  nth_error items i = Some v ->
  (forall s, v <> VString s) ->
  exists issues,
    strings_from p base items = inl issues
    /\ In (Zod.issue errorMap
             (Zod.invalid_type "string" (Zod.getParsedType v))
             (p ++ [Zod.Index (base + i)])%list)
          issues.
Proof.
  revert i base. induction items as [|x rest IH]; intros i base Hnth Hv;
    [destruct i; discriminate|].
  cbn [strings_from]. unfold Zod.cons_outcome.
  destruct i as [|i]; cbn in Hnth.
  - injection Hnth as ->. rewrite Nat.add_0_r.
    assert (Zod.parse_at errorMap Zod.string_ (p ++ [Zod.Index base])%list v
            = inl [Zod.issue errorMap
                     (Zod.invalid_type "string" (Zod.getParsedType v))
                     (p ++ [Zod.Index base])%list]) as ->
      by (destruct v; try reflexivity; now destruct (Hv s)).
    destruct (strings_from p (S base) rest) as [j|ys]; cbn;
      eexists; (split; [reflexivity|]); now left.
  - destruct (IH i (S base) Hnth Hv) as (issues & E & I).
    replace (base + S i)%nat with (S base + i)%nat by lia.
    rewrite E.
    destruct (Zod.parse_at errorMap Zod.string_ _ x) as [j|y]; cbn;
      eexists; (split; [reflexivity|]); [|assumption].
    apply in_or_app. now right.
Qed.

(** X16. In the bag of [find-coin-ids], an item of [coins] that is not a string
    is reported under the path [coins.i], [i] being its index. *)
Theorem FindCoinIdsArgumentsSchema_reports_item
  (fields : list (string * Value)) (items : list Value) (i : nat) (v : Value) :
  property fields "coins" = VArray items ->
  nth_error items i = Some v ->
  (forall s, v <> VString s) ->
  exists issues,
    Zod.safeParse errorMap FindCoinIdsArgumentsSchema (VObject fields)
    = inl issues
    /\ In (Zod.issue errorMap
             (Zod.invalid_type "string" (Zod.getParsedType v))
             [Zod.Key "coins"; Zod.Index i])
          issues.
Proof.
  intros Hc Hnth Hv. unfold Zod.safeParse, FindCoinIdsArgumentsSchema.
  rewrite parse_at_object, parse_shape_field. rewrite Hc.
  rewrite array_of_strings_loop.
  destruct (strings_from_rejects [Zod.Key "coins"] items i O v Hnth Hv)
    as (issues & E & I).
  cbn [app] in *. rewrite E. cbn. now exists issues.
Qed.

Lemma ohlc_arguments_narrower (args : Value)
  (id vs_currency : string) (from to : JS.number) (interval : string) :
  Zod.safeParse errorMap GetOHLCDataArgumentsSchema args
  = inr (id, (vs_currency, (from, (to, (interval, tt))))) ->
  Zod.safeParse errorMap GetHistoricalDataArgumentsSchema args
  = inr (id, (vs_currency, (from, (to, (Some interval, tt)))))
  /\ (interval = "daily" \/ interval = "hourly").
Proof.
  unfold Zod.safeParse, GetOHLCDataArgumentsSchema,
    GetHistoricalDataArgumentsSchema.
  destruct args as [| | b | z | s | items | fields]; try discriminate.
  rewrite !parse_at_object, !parse_shape_field.
  rewrite !both_inr. intros (H1 & H2 & H3 & H4 & H5 & _).
  assert (property fields "interval" = VString interval
          /\ (interval = "daily" \/ interval = "hourly")) as [E D].
  { destruct (property fields "interval") as [| | ? | ? | s | ? | ?];
      cbn in H5; try discriminate.
    destruct (String.eqb_spec s "daily") as [Hd|_].
    - injection H5 as <-. auto.
    - destruct (String.eqb_spec s "hourly") as [Hh|_]; [|discriminate].
      injection H5 as <-. auto. }
  split; [|exact D].
  repeat split; try assumption.
  rewrite E. destruct D as [-> | ->]; reflexivity.
Qed.

Lemma GetOHLCData_interval (args : Value) (id vs_currency : string)
  (from to : JS.number) (interval : string) :
  Zod.safeParse errorMap GetOHLCDataArgumentsSchema args
  = inr (id, (vs_currency, (from, (to, (interval, tt))))) ->
  interval = "daily" \/ interval = "hourly".
Proof. intros E. now apply ohlc_arguments_narrower in E. Qed.

(** X17. Every bag that the schema of [get-ohlc-data] accepts is accepted by the
    schema of [get-historical-data], with the same data. *)
Theorem GetOHLCDataArgumentsSchema_narrower (args : Value)
  (id vs_currency : string) (from to : JS.number) (interval : string) :
  Zod.safeParse errorMap GetOHLCDataArgumentsSchema args
  = inr (id, (vs_currency, (from, (to, (interval, tt))))) ->
  Zod.safeParse errorMap GetHistoricalDataArgumentsSchema args
  = inr (id, (vs_currency, (from, (to, (Some interval, tt)))))
  /\ (interval = "daily" \/ interval = "hourly").
Proof. apply ohlc_arguments_narrower. Qed.

(** ** What a computation leaves alone *)

Lemma keeps_ret {A : Type} (a : A) : KeepsService (ret a).
Proof. intros w. reflexivity. Qed.

Lemma keeps_throw {A : Type} (e : Thrown) : KeepsService (@throw A e).
Proof. intros w. reflexivity. Qed.

Lemma keeps_bind {A B : Type} (m : M A) (k : A -> M B) :
  KeepsService m -> (forall a, KeepsService (k a)) -> KeepsService (bind m k).
Proof.
  intros Hm Hk w. unfold bind. specialize (Hm w).
  destruct (m w) as [w1 [a|e]]; cbn in *; [|exact Hm].
  now rewrite Hk.
Qed.

Lemma keeps_try_catch {A : Type} (m : M A) (h : Thrown -> M A) :
  KeepsService m -> (forall e, KeepsService (h e)) ->
  KeepsService (try_catch m h).
Proof.
  intros Hm Hh w. unfold try_catch. specialize (Hm w).
  destruct (m w) as [w1 [a|e]]; cbn in *; [exact Hm|].
  now rewrite Hh.
Qed.

Lemma keeps_get {A : Type} (f : CoinGeckoService -> A) : KeepsService (get f).
Proof. intros w. reflexivity. Qed.

Lemma keeps_await {A : Type} (c : Completion A) : KeepsService (await c).
Proof. intros w. reflexivity. Qed.

Lemma keeps_console_error (args : list Logged) :
  KeepsService (console_error args).
Proof. intros w. reflexivity. Qed.

Lemma keeps_fetch {A : Type} (endpoint : Endpoint A) (u : string)
  (h : list (string * string)) : KeepsService (fetch endpoint u h).
Proof. intros w. reflexivity. Qed.

Lemma keeps_parse {A : Type} (schema : Zod.ZodType A) (input : Value) :
  KeepsService (parse schema input).
Proof. intros w. unfold parse. now destruct (Zod.safeParse _ _ _). Qed.

Lemma keeps_toISOString (n : JS.number) : KeepsService (toISOString n).
Proof. intros w. unfold toISOString. now destruct (JS.time_value n). Qed.

Lemma keeps_mapM {A B : Type} (f : A -> M B) (xs : list A) :
  (forall x, KeepsService (f x)) -> KeepsService (mapM f xs).
Proof.
  intros Hf. induction xs as [|x rest IH]; cbn [mapM]; [apply keeps_ret|].
  apply keeps_bind; [apply Hf|]. intros y.
  apply keeps_bind; [exact IH|]. intros ys. apply keeps_ret.
Qed.

Create HintDb keeps.
#[local] Hint Resolve keeps_ret keeps_throw keeps_get keeps_await
  keeps_console_error keeps_fetch keeps_parse keeps_toISOString : keeps.

Ltac keeps :=
  repeat first
    [ apply keeps_bind; [|intros ?]
    | apply keeps_try_catch; [|intros ?]
    | apply keeps_mapM; intros ?
    | solve [auto with keeps]
    | match goal with
      | |- KeepsService (if ?b then _ else _) => destruct b
      | |- KeepsService (match ?x with _ => _ end) => destruct x
      end ].

Lemma keeps_getCoins (page pageSize : option JS.number) :
  KeepsService (getCoins page pageSize).
Proof. unfold getCoins. keeps. Qed.

Lemma keeps_getTotalPages (pageSize : option JS.number) :
  KeepsService (getTotalPages pageSize).
Proof. unfold getTotalPages. keeps. Qed.

Lemma keeps_getLastUpdated : KeepsService getLastUpdated.
Proof. unfold getLastUpdated. keeps. Qed.

Lemma keeps_findCoinIds (coinNames : list string) :
  KeepsService (findCoinIds coinNames).
Proof. unfold findCoinIds. keeps. Qed.

Lemma keeps_getHistoricalData (id vs_currency : string) (from to : JS.number)
  (interval : option string) :
  KeepsService (getHistoricalData id vs_currency from to interval).
Proof. unfold getHistoricalData. keeps. Qed.

Lemma keeps_getOHLCData (id vs_currency : string) (from to : JS.number)
  (interval : string) :
  KeepsService (getOHLCData id vs_currency from to interval).
Proof. unfold getOHLCData. keeps. Qed.

#[local] Hint Resolve keeps_getCoins keeps_getTotalPages keeps_getLastUpdated
  keeps_findCoinIds keeps_getHistoricalData keeps_getOHLCData : keeps.

Lemma sends_weaken {A : Type} (n n' : nat) (m : M A) :
  (n <= n')%nat -> Sends n m -> Sends n' m.
Proof.
  intros L H w. destruct (H w) as (extra & E & Le).
  exists extra. split; [exact E | lia].
Qed.

Lemma sends_keeps_world {A : Type} (m : M A) :
  (forall w, fst (m w) = w) -> Sends 0 m.
Proof.
  intros H w. exists []. rewrite H, app_nil_r. split; [reflexivity | cbn; lia].
Qed.

Lemma sends_bind {A B : Type} (n k : nat) (m : M A) (f : A -> M B) :
  Sends n m -> (forall a, Sends k (f a)) -> Sends (n + k) (bind m f).
Proof.
  intros Hm Hf w. unfold bind. destruct (Hm w) as (e1 & E1 & L1).
  destruct (m w) as [w1 [a|e]]; cbn in *.
  - destruct (Hf a w1) as (e2 & E2 & L2).
    exists (e1 ++ e2)%list. rewrite E2, E1, app_assoc, length_app.
    split; [reflexivity | lia].
  - exists e1. split; [exact E1 | lia].
Qed.

Lemma sends_try_catch {A : Type} (n k : nat) (m : M A) (h : Thrown -> M A) :
  Sends n m -> (forall e, Sends k (h e)) -> Sends (n + k) (try_catch m h).
Proof.
  intros Hm Hh w. unfold try_catch. destruct (Hm w) as (e1 & E1 & L1).
  destruct (m w) as [w1 [a|e]]; cbn in *.
  - exists e1. split; [exact E1 | lia].
  - destruct (Hh e w1) as (e2 & E2 & L2).
    exists (e1 ++ e2)%list. rewrite E2, E1, app_assoc, length_app.
    split; [reflexivity | lia].
Qed.

Lemma sends_fetch {A : Type} (endpoint : Endpoint A) (u : string)
  (h : list (string * string)) : Sends 1 (fetch endpoint u h).
Proof. intros w. eexists. split; [reflexivity | cbn; lia]. Qed.

Lemma sends_quiet {A : Type} (m : M A) :
  (forall w, requests (fst (m w)) = requests w) -> Sends 0 m.
Proof.
  intros H w. exists []. rewrite H, app_nil_r. split; [reflexivity | cbn; lia].
Qed.

Lemma sends_bind_quiet_l {A B : Type} (n : nat) (m : M A) (f : A -> M B) :
  Sends 0 m -> (forall a, Sends n (f a)) -> Sends n (bind m f).
Proof. intros Hm Hf. exact (sends_bind 0 n m f Hm Hf). Qed.

Lemma sends_bind_quiet_r {A B : Type} (n : nat) (m : M A) (f : A -> M B) :
  Sends n m -> (forall a, Sends 0 (f a)) -> Sends n (bind m f).
Proof.
  intros Hm Hf. apply (sends_weaken (n + 0) n); [lia|].
  exact (sends_bind n 0 m f Hm Hf).
Qed.

Lemma sends_try_catch_quiet {A : Type} (n : nat) (m : M A)
  (h : Thrown -> M A) :
  Sends n m -> (forall e, Sends 0 (h e)) -> Sends n (try_catch m h).
Proof.
  intros Hm Hh. apply (sends_weaken (n + 0) n); [lia|].
  exact (sends_try_catch n 0 m h Hm Hh).
Qed.

Lemma sends_ret {A : Type} (a : A) : Sends 0 (ret a).
Proof. now apply sends_quiet. Qed.

Lemma sends_throw {A : Type} (e : Thrown) : Sends 0 (@throw A e).
Proof. now apply sends_quiet. Qed.

Lemma sends_get {A : Type} (f : CoinGeckoService -> A) : Sends 0 (get f).
Proof. now apply sends_quiet. Qed.

Lemma sends_await {A : Type} (c : Completion A) : Sends 0 (await c).
Proof. now apply sends_quiet. Qed.

Lemma sends_console_error (args : list Logged) : Sends 0 (console_error args).
Proof. now apply sends_quiet. Qed.

Lemma sends_set_coins (v : list CoinInfo.t) : Sends 0 (set_coins v).
Proof. now apply sends_quiet. Qed.

Lemma sends_set_lastUpdated (d : Date) : Sends 0 (set_lastUpdated d).
Proof. now apply sends_quiet. Qed.

Lemma sends_new_Date : Sends 0 (new_Date upstream).
Proof. now apply sends_quiet. Qed.

Lemma sends_parse {A : Type} (schema : Zod.ZodType A) (input : Value) :
  Sends 0 (parse schema input).
Proof.
  apply sends_quiet. intros w. unfold parse.
  now destruct (Zod.safeParse _ _ _).
Qed.

Lemma sends_toISOString (n : JS.number) : Sends 0 (toISOString n).
Proof.
  apply sends_quiet. intros w. unfold toISOString.
  now destruct (JS.time_value n).
Qed.

Lemma sends_mapM {A B : Type} (f : A -> M B) (xs : list A) :
  (forall x, Sends 0 (f x)) -> Sends 0 (mapM f xs).
Proof.
  intros Hf. induction xs as [|x rest IH]; cbn [mapM]; [apply sends_ret|].
  apply sends_bind_quiet_l; [apply Hf|]. intros y.
  apply sends_bind_quiet_l; [exact IH|]. intros ys. apply sends_ret.
Qed.

Create HintDb sends.
#[local] Hint Resolve sends_ret sends_throw sends_get sends_await
  sends_console_error sends_set_coins sends_set_lastUpdated sends_new_Date
  sends_parse sends_toISOString sends_fetch : sends.

Ltac sends :=
  lazymatch goal with
  | |- Sends _ (bind _ _) =>
      first [ apply sends_bind_quiet_l; [solve [sends] | intros ?; sends]
            | apply sends_bind_quiet_r; [sends | intros ?; solve [sends]] ]
  | |- Sends _ (try_catch _ _) =>
      apply sends_try_catch_quiet; [sends | intros ?; sends]
  | |- Sends _ (mapM _ _) => apply sends_mapM; intros ?; sends
  | |- Sends _ (if ?b then _ else _) => destruct b; sends
  | |- Sends _ (match ?x with _ => _ end) => destruct x; sends
  | |- Sends _ _ =>
      first [ solve [auto with sends]
            | apply (sends_weaken 0 1); [lia | solve [auto with sends]] ]
  end.

Lemma sends_getCoins (page pageSize : option JS.number) :
  Sends 0 (getCoins page pageSize).
Proof. unfold getCoins. sends. Qed.

Lemma sends_getTotalPages (pageSize : option JS.number) :
  Sends 0 (getTotalPages pageSize).
Proof. unfold getTotalPages. sends. Qed.

Lemma sends_getLastUpdated : Sends 0 getLastUpdated.
Proof. unfold getLastUpdated. sends. Qed.

Lemma sends_findCoinIds (coinNames : list string) :
  Sends 0 (findCoinIds coinNames).
Proof. unfold findCoinIds. sends. Qed.

Lemma sends_refreshCoinList : Sends 1 refreshCoinList.
Proof. unfold refreshCoinList. sends. Qed.

Lemma sends_getHistoricalData (id vs_currency : string) (from to : JS.number)
  (interval : option string) :
  Sends 1 (getHistoricalData id vs_currency from to interval).
Proof. unfold getHistoricalData. sends. Qed.

Lemma sends_getOHLCData (id vs_currency : string) (from to : JS.number)
  (interval : string) :
  Sends 1 (getOHLCData id vs_currency from to interval).
Proof. unfold getOHLCData. sends. Qed.

#[local] Hint Resolve sends_getCoins sends_getTotalPages sends_getLastUpdated
  sends_findCoinIds sends_refreshCoinList sends_getHistoricalData
  sends_getOHLCData : sends.

Lemma keeps_handler (request : CallToolRequest.params) :
  CallToolRequest.name request <> "refresh-cache" ->
  KeepsService (handler request).
Proof.
  intros N. unfold handler.
  destruct (String.eqb_spec (CallToolRequest.name request) "refresh-cache");
    [contradiction|].
  keeps.
Qed.

Lemma sends_handler (request : CallToolRequest.params) :
  Sends 1 (handler request).
Proof. unfold handler. sends. Qed.

Lemma sends_server_handler (request : CallToolRequest.params) :
  Sends 1 (server_handler request).
Proof. unfold server_handler. sends. Qed.

(** ** More on the dispatcher of the entry point *)

Lemma handler_get_coins_run (w : World) (args : Value) :
  handler {| CallToolRequest.name := "get-coins";
             CallToolRequest.arguments := args |} w
  = (w,
     match Zod.safeParse errorMap GetCoinsArgumentsSchema args with
     | inl issues => Throw (Error (invalid_arguments issues))
     | inr (page, (pageSize, _)) =>
         let page' := JS.default (JS.Integer 1) page in
         let pageSize' := JS.default (JS.Integer 100) pageSize in
         let start := JS.mul (JS.sub page' (JS.Integer 1)) pageSize' in
         Return
           (CoinsPage
              (JS.slice (coins (this w)) start (JS.add start pageSize'))
              page'
              (JS.ceil_div (List.length (coins (this w))) pageSize')
              pageSize'
              (option_map ISO (lastUpdated (this w))))
     end).
Proof.
  unfold handler. cbn [CallToolRequest.name CallToolRequest.arguments].
  cbn [String.eqb Ascii.eqb Bool.eqb]. unfold try_catch, bind, parse.
  destruct (Zod.safeParse errorMap GetCoinsArgumentsSchema args)
    as [issues | [page [pageSize []]]]; reflexivity.
Qed.

Lemma handler_find_coin_ids_run (w : World) (args : Value) :
  handler {| CallToolRequest.name := "find-coin-ids";
             CallToolRequest.arguments := args |} w
  = (w,
     match Zod.safeParse errorMap FindCoinIdsArgumentsSchema args with
     | inl issues => Throw (Error (invalid_arguments issues))
     | inr (coinNames, _) =>
         match snd (findCoinIds coinNames w) with
         | Return results => Return (CoinIds results)
         | Throw e => Throw e
         end
     end).
Proof.
  unfold handler. cbn [CallToolRequest.name CallToolRequest.arguments].
  cbn [String.eqb Ascii.eqb Bool.eqb]. unfold try_catch, bind, parse.
  destruct (Zod.safeParse errorMap FindCoinIdsArgumentsSchema args)
    as [issues | [coinNames []]]; [reflexivity|].
  cbn. rewrite findCoinIds_run. reflexivity.
Qed.

(** X18. A name that the entry point does not list is answered by the error
    [Unknown tool], whatever the arguments are, and nothing else happens. *)
Theorem handler_unknown_tool (w : World) (request : CallToolRequest.params) :
  ~ In (CallToolRequest.name request) listed_tools ->
  handler request w
  = (w, Throw (Error ("Unknown tool: " ++ CallToolRequest.name request))).
Proof.
  intros N. unfold handler, listed_tools in *. cbn [In] in N.
  destruct (String.eqb_spec (CallToolRequest.name request) "get-coins");
    [intuition congruence|].
  destruct (String.eqb_spec (CallToolRequest.name request) "find-coin-ids");
    [intuition congruence|].
  destruct (String.eqb_spec (CallToolRequest.name request) "refresh-cache");
    [intuition congruence|].
  destruct (String.eqb_spec (CallToolRequest.name request)
              "get-historical-data"); [intuition congruence|].
  reflexivity.
Qed.

(** X19. Only [refresh-cache] touches the cache: any other call, with any
    arguments and whatever the upstream answers, leaves the cached list,
    [lastUpdated] and the API key as they were. *)
Theorem handler_only_refresh_changes_cache (w : World)
  (request : CallToolRequest.params) :
  CallToolRequest.name request <> "refresh-cache" ->
  exists w' c,
    handler request w = (w', c)
    /\ coins (this w') = coins (this w)
    /\ lastUpdated (this w') = lastUpdated (this w)
    /\ apiKey (this w') = apiKey (this w).
Proof.
  intros N. pose proof (keeps_handler request N w) as K.
  destruct (handler request w) as [w' c]. cbn in K.
  exists w', c. now rewrite K.
Qed.

(** X20. A call sends at most one request to the upstream, and no request that
    was recorded is lost; [get-coins] and [find-coin-ids] send none and
    leave the whole world as it was. *)
Theorem handler_sends_at_most_one_request (w : World)
  (request : CallToolRequest.params) :
  (exists extra,
     requests (fst (handler request w)) = (requests w ++ extra)%list
     /\ (List.length extra <= 1)%nat)
  /\ (CallToolRequest.name request = "get-coins"
      \/ CallToolRequest.name request = "find-coin-ids" ->
      fst (handler request w) = w).
Proof.
  split; [apply sends_handler|].
  destruct request as [name args]. cbn. intros [-> | ->].
  - now rewrite handler_get_coins_run.
  - now rewrite handler_find_coin_ids_run.
Qed.

Lemma optional_between_Integer (lo : Z) (hi : option Z) (v : Value)
  (z : Z) :
  optional_between lo hi v (Some (JS.Integer z)) ->
  lo <= z /\ match hi with Some h => z <= h | None => True end.
Proof.
  destruct v; cbn; try contradiction.
  intros (<- & _ & L & H). unfold Less in *. cbn in L.
  split; [lia|]. destruct hi as [h|]; [|exact I]. cbn in H. lia.
Qed.

(** X21. An accepted call of [get-coins] whose [page] and [pageSize] are
    integers, or absent: the payload holds the page asked for (page 1 and
    100 records a page when the bag is silent), never more than [pageSize]
    records and so never more than 1000, and the page is empty exactly when
    it lies after the last page. *)
Theorem handler_get_coins_page (w : World) (args : Value)
  (page pageSize : option Z) :
  Zod.safeParse errorMap GetCoinsArgumentsSchema args
  = inr (option_map JS.Integer page, (option_map JS.Integer pageSize, tt)) ->
  exists records total,
    handler {| CallToolRequest.name := "get-coins";
               CallToolRequest.arguments := args |} w
    = (w, Return (CoinsPage records (JS.Integer (JS.default 1 page))
                    (JS.Integer total)
                    (JS.Integer (JS.default 100 pageSize))
                    (option_map ISO (lastUpdated (this w)))))
    /\ getCoins (option_map JS.Integer page) (option_map JS.Integer pageSize) w
       = (w, Return records)
    /\ 1 <= JS.default 1 page
    /\ Z.of_nat (List.length records) <= JS.default 100 pageSize <= 1000
    /\ (records = [] <-> total < JS.default 1 page).
Proof.
  intros E. rewrite handler_get_coins_run, E.
  apply accepts_get_coins in E as (fields & _ & Hp & Hs).
  assert (Bp : 1 <= JS.default 1 page).
  { destruct page as [z|]; cbn [JS.default]; [|lia].
    now apply optional_between_Integer in Hp. }
  assert (Bs : 1 <= JS.default 100 pageSize <= 1000).
  { destruct pageSize as [z|]; cbn [JS.default]; [|lia].
    now apply optional_between_Integer in Hs. }
  assert (Dp : JS.default (JS.Integer 1) (option_map JS.Integer page)
               = JS.Integer (JS.default 1 page)) by now destruct page.
  assert (Ds : JS.default (JS.Integer 100) (option_map JS.Integer pageSize)
               = JS.Integer (JS.default 100 pageSize)) by now destruct pageSize.
  unfold getCoins, bind, get, ret. cbn zeta. rewrite Dp, Ds.
  set (p := JS.default 1 page) in *. set (s := JS.default 100 pageSize) in *.
  destruct (total_pages_bounds w s) as (k & Ek & B); [lia|].
  rewrite getTotalPages_run in Ek. injection Ek as Ek.
  rewrite Ek. do 2 eexists. split; [reflexivity|].
  split; [reflexivity|].
  change (JS.add (JS.mul (JS.sub (JS.Integer p) (JS.Integer 1)) (JS.Integer s))
            (JS.Integer s))
    with (JS.Integer ((p - 1) * s + s)).
  change (JS.mul (JS.sub (JS.Integer p) (JS.Integer 1)) (JS.Integer s))
    with (JS.Integer ((p - 1) * s)).
  split; [exact Bp|]. split; [split; [apply slice_length; nia | lia]|].
  pose proof (slice_count (coins (this w)) ((p - 1) * s) s
                ltac:(nia) ltac:(lia)) as C.
  split.
  - intros Hnil. rewrite Hnil in C. cbn in C. nia.
  - intros Hlt. apply length_zero_iff_nil. nia.
Qed.

(** X22. An accepted call of [find-coin-ids]: the names of the bag, in their
    order, are looked up, and the payload is what [findCoinIds] returns. *)
Theorem handler_find_coin_ids (w : World) (fields : list (string * Value))
  (coinNames : list string) :
  property fields "coins" = VArray (map VString coinNames) ->
  exists results,
    findCoinIds coinNames w = (w, Return results)
    /\ handler {| CallToolRequest.name := "find-coin-ids";
                  CallToolRequest.arguments := VObject fields |} w
       = (w, Return (CoinIds results)).
Proof.
  intros H. rewrite handler_find_coin_ids_run.
  unfold Zod.safeParse, FindCoinIdsArgumentsSchema.
  rewrite parse_at_object, parse_shape_field, H, array_of_strings_accepts.
  cbn. rewrite findCoinIds_run. eexists. split; reflexivity.
Qed.

Lemma refreshCoinList_success_run (w : World)
  (r : Response (list CoinInfo.t)) (fresh : list CoinInfo.t) :
  coins_list upstream (requests w) (refresh_request w) = Return r ->
  ok r = true ->
  json r = Return fresh ->
  refreshCoinList w
  = ({| this := {| apiKey := apiKey (this w);
                   coins := fresh;
                   lastUpdated :=
                     Some (clock upstream
                             (requests w ++ [refresh_request w])%list) |};
        requests := (requests w ++ [refresh_request w])%list;
        console := console w |}, Return tt).
Proof.
  intros Hanswer Hok Hjson.
  unfold refreshCoinList, try_catch, bind, get, fetch.
  fold (refresh_request w). cbn [this requests].
  rewrite Hanswer, Hok. cbn. unfold await. now rewrite Hjson.
Qed.

Lemma refreshCoinList_failure_run (w : World) (e : Thrown) :
  UpstreamFailure (coins_list upstream (requests w) (refresh_request w)) e ->
  refreshCoinList w
  = ({| this := this w;
        requests := (requests w ++ [refresh_request w])%list;
        console := (console w ++ [[LogString "Error refreshing coin cache:";
                                   LogThrown e]])%list |}, Throw e).
Proof.
  intros F.
  unfold refreshCoinList, try_catch, bind, get, fetch.
  fold (refresh_request w). cbn [this requests].
  remember (coins_list upstream (requests w) (refresh_request w)) as answer.
  destruct F as [e | r Hok | r e Hok Hjson].
  - reflexivity.
  - now rewrite Hok.
  - rewrite Hok. cbn. unfold await. now rewrite Hjson.
Qed.

Lemma refreshCoinList_cases (w : World) :
  (exists r fresh,
     coins_list upstream (requests w) (refresh_request w) = Return r
     /\ ok r = true /\ json r = Return fresh)
  \/ (exists e,
        UpstreamFailure
          (coins_list upstream (requests w) (refresh_request w)) e).
Proof.
  destruct (coins_list upstream (requests w) (refresh_request w)) as [r|e].
  - destruct (ok r) eqn:Hok.
    + destruct (json r) as [fresh|e] eqn:Hjson.
      * left. now exists r, fresh.
      * right. exists e. now apply body_failure.
    + right. eexists. now apply status_failure.
  - right. exists e. apply transport_failure.
Qed.

(** X23. [refresh-cache] does not look at its arguments.  When the upstream
    answers with a catalogue, the payload carries the time that the cache
    now holds as [lastUpdated]; when the upstream fails with an error, that
    error is thrown as it is and the cache is as it was. *)
Theorem handler_refresh_cache (w : World) (args : Value) :
  (forall r fresh,
     coins_list upstream (requests w) (refresh_request w) = Return r ->
     ok r = true -> json r = Return fresh ->
     exists w' now,
       handler {| CallToolRequest.name := "refresh-cache";
                  CallToolRequest.arguments := args |} w
       = (w', Return (CacheRefreshed (Some (ISO now))))
       /\ coins (this w') = fresh
       /\ lastUpdated (this w') = Some now)
  /\ (forall message,
        UpstreamFailure
          (coins_list upstream (requests w) (refresh_request w))
          (Error message) ->
        exists w',
          handler {| CallToolRequest.name := "refresh-cache";
                     CallToolRequest.arguments := args |} w
          = (w', Throw (Error message))
          /\ this w' = this w).
Proof.
  unfold handler. cbn [CallToolRequest.name CallToolRequest.arguments].
  cbn [String.eqb Ascii.eqb Bool.eqb].
  split.
  - intros r fresh Hanswer Hok Hjson. unfold try_catch, bind at 1.
    rewrite (refreshCoinList_success_run w r fresh Hanswer Hok Hjson).
    do 2 eexists. split; [reflexivity|]. split; reflexivity.
  - intros message F. unfold try_catch, bind at 1.
    rewrite (refreshCoinList_failure_run w _ F).
    eexists. split; reflexivity.
Qed.

Lemma getHistoricalData_success_run (w : World) (id vs_currency : string)
  (from to : JS.number) (interval : option string)
  (r : Response (HistoricalData num)) (data : HistoricalData num) :
  market_chart_range upstream (requests w)
    (historical_request w id vs_currency from to interval) = Return r ->
  ok r = true -> json r = Return data ->
  getHistoricalData id vs_currency from to interval w
  = ({| this := this w;
        requests :=
          (requests w
           ++ [historical_request w id vs_currency from to interval])%list;
        console := console w |}, Return data).
Proof.
  intros Hanswer Hok Hjson.
  destruct (getHistoricalData_cases w id vs_currency from to interval)
    as (w' & c & E & T & R & S & _).
  destruct (S r data Hanswer Hok Hjson) as [-> C].
  rewrite E. f_equal. destruct w' as [t rq co]. cbn in *. congruence.
Qed.

Lemma toISOString_Integer (seconds : Z) (w : World) :
  toISOString (JS.mul (JS.Integer seconds) (JS.Integer 1000)) w
  = (w, if (Z.abs (seconds * 1000) <=? 8640000000000000)%Z
        then Return (ISO (seconds * 1000))
        else Throw (Error "Invalid time value")).
Proof.
  unfold toISOString.
  change (JS.mul (JS.Integer seconds) (JS.Integer 1000))
    with (JS.Integer (seconds * 1000)).
  unfold JS.time_value. cbn [JS.to_integer_or_infinity].
  now destruct (_ <=? _)%Z.
Qed.

(** X24. [get-historical-data] renders the time range only after the upstream
    has answered: a range of whole seconds outside of what a [Date] can hold
    makes the call throw [Invalid time value] although the request was sent
    and answered. *)
Theorem handler_historical_invalid_time (w : World) (args : Value)
  (id vs_currency : string) (from to : Z) (interval : option string)
  (r : Response (HistoricalData num)) (data : HistoricalData num) :
  Zod.safeParse errorMap GetHistoricalDataArgumentsSchema args
  = inr (id, (vs_currency,
              (JS.Integer from, (JS.Integer to, (interval, tt))))) ->
  market_chart_range upstream (requests w)
    (historical_request w id vs_currency (JS.Integer from) (JS.Integer to)
       interval) = Return r ->
  ok r = true -> json r = Return data ->
  8640000000000000 < Z.abs (from * 1000)
  \/ 8640000000000000 < Z.abs (to * 1000) ->
  exists w',
    handler {| CallToolRequest.name := "get-historical-data";
               CallToolRequest.arguments := args |} w
    = (w', Throw (Error "Invalid time value"))
    /\ requests w'
       = (requests w
          ++ [historical_request w id vs_currency (JS.Integer from)
                (JS.Integer to) interval])%list
    /\ this w' = this w.
Proof.
  intros E Hanswer Hok Hjson Hrange.
  unfold handler. cbn [CallToolRequest.name CallToolRequest.arguments].
  cbn [String.eqb Ascii.eqb Bool.eqb]. unfold try_catch, bind at 1, parse.
  rewrite E. cbn [ret]. unfold bind at 1.
  rewrite (getHistoricalData_success_run w id vs_currency (JS.Integer from)
             (JS.Integer to) interval r data Hanswer Hok Hjson).
  unfold bind. rewrite toISOString_Integer.
  destruct (Z.leb_spec (Z.abs (from * 1000)) 8640000000000000).
  - cbn beta iota. rewrite toISOString_Integer.
    destruct (Z.leb_spec (Z.abs (to * 1000)) 8640000000000000); [lia|].
    eexists. split; [reflexivity|]. split; reflexivity.
  - eexists. split; [reflexivity|]. split; reflexivity.
Qed.

(** ** The dispatcher of the server class *)

(** X25. On every tool but [get-ohlc-data] the handler of the server class does
    what the handler of the entry point does: same world afterwards, same
    payload or same error. *)
Theorem server_handler_agrees (w : World) (request : CallToolRequest.params) :
  CallToolRequest.name request <> "get-ohlc-data" ->
  server_handler request w
  = (fst (handler request w), share (snd (handler request w))).
Proof.
  destruct request as [name args]. cbn [CallToolRequest.name]. intros N.
  unfold server_handler, handler.
  cbn [CallToolRequest.name CallToolRequest.arguments].
  destruct (String.eqb_spec name "get-coins") as [->|N1].
  { cbn [String.eqb Ascii.eqb Bool.eqb]. unfold try_catch, bind, parse.
    destruct (Zod.safeParse errorMap GetCoinsArgumentsSchema args)
      as [issues | [page [pageSize []]]]; reflexivity. }
  destruct (String.eqb_spec name "find-coin-ids") as [->|N2].
  { cbn [String.eqb Ascii.eqb Bool.eqb]. unfold try_catch, bind, parse.
    destruct (Zod.safeParse errorMap FindCoinIdsArgumentsSchema args)
      as [issues | [coinNames []]]; [reflexivity|].
    cbn [ret]. rewrite findCoinIds_run. reflexivity. }
  destruct (String.eqb_spec name "get-historical-data") as [->|N3].
  { cbn [String.eqb Ascii.eqb Bool.eqb]. unfold try_catch, bind, parse.
    destruct (Zod.safeParse errorMap GetHistoricalDataArgumentsSchema args)
      as [issues | [id [vs [from [to [interval []]]]]]]; [reflexivity|].
    cbn [ret].
    destruct (getHistoricalData id vs from to interval w) as [w1 [data|e]];
      [|destruct e; reflexivity].
    unfold toISOString.
    destruct (JS.time_value (JS.mul from (JS.Integer 1000))); [|reflexivity].
    destruct (JS.time_value (JS.mul to (JS.Integer 1000))); reflexivity. }
  destruct (String.eqb_spec name "refresh-cache") as [->|N4].
  { unfold try_catch, bind.
    destruct (refreshCoinList w) as [w1 [[]|e]]; [reflexivity|].
    destruct e; reflexivity. }
  destruct (String.eqb_spec name "get-ohlc-data") as [->|N5];
    [contradiction | reflexivity].
Qed.

(** X26. [get-ohlc-data] with a bag that its schema rejects: the error names the
    issues, and the world is left as it was. *)
Theorem server_handler_rejects_ohlc_arguments (w : World) (args : Value)
  (issues : list Zod.ZodIssue) :
  Zod.safeParse errorMap GetOHLCDataArgumentsSchema args = inl issues ->
  server_handler {| CallToolRequest.name := "get-ohlc-data";
                    CallToolRequest.arguments := args |} w
  = (w, Throw (Error (invalid_arguments issues))).
Proof.
  intros E. unfold server_handler.
  cbn [CallToolRequest.name CallToolRequest.arguments].
  cbn [String.eqb Ascii.eqb Bool.eqb]. unfold try_catch, bind, parse.
  now rewrite E.
Qed.

Lemma getOHLCData_success_run (w : World) (id vs_currency : string)
  (from to : JS.number) (interval : string)
  (r : Response (list (list num))) (rows : list (list num)) :
  ohlc_range upstream (requests w)
    (ohlc_request w id vs_currency from to interval) = Return r ->
  ok r = true -> json r = Return rows ->
  getOHLCData id vs_currency from to interval w
  = ({| this := this w;
        requests :=
          (requests w ++ [ohlc_request w id vs_currency from to interval])%list;
        console :=
          (console w
           ++ [[LogString
                  ("Making request to: "
                   ++ url (ohlc_request w id vs_currency from to interval))]])%list
     |}, Return (map reshape rows)).
Proof.
  intros Hanswer Hok Hjson.
  unfold getOHLCData, try_catch, bind, get, fetch, console_error.
  cbn [this requests console].
  fold (ohlc_request w id vs_currency from to interval).
  rewrite Hanswer, Hok. cbn. unfold await. now rewrite Hjson.
Qed.

(** X27. An accepted call of [get-ohlc-data], answered by the upstream with rows,
    for a time range of whole seconds that a [Date] can hold: the payload
    echoes the range, in milliseconds, and the interval and carries one bar
    per row, and the cache is as it was. *)
Theorem server_handler_get_ohlc_data (w : World) (args : Value)
  (id vs_currency : string) (from to : Z) (interval : string)
  (r : Response (list (list num))) (rows : list (list num)) :
  Zod.safeParse errorMap GetOHLCDataArgumentsSchema args
  = inr (id, (vs_currency,
              (JS.Integer from, (JS.Integer to, (interval, tt))))) ->
  ohlc_range upstream (requests w)
    (ohlc_request w id vs_currency (JS.Integer from) (JS.Integer to) interval)
  = Return r ->
  ok r = true -> json r = Return rows ->
  Z.abs (from * 1000) <= 8640000000000000 ->
  Z.abs (to * 1000) <= 8640000000000000 ->
  exists w',
    server_handler {| CallToolRequest.name := "get-ohlc-data";
                      CallToolRequest.arguments := args |} w
    = (w', Return (OHLCRange (ISO (from * 1000)) (ISO (to * 1000)) interval
                     (map reshape rows)))
    /\ this w' = this w
    /\ (interval = "daily" \/ interval = "hourly").
Proof.
  intros E Hanswer Hok Hjson Hfrom Hto.
  unfold server_handler.
  cbn [CallToolRequest.name CallToolRequest.arguments].
  cbn [String.eqb Ascii.eqb Bool.eqb]. unfold try_catch, bind at 1, parse.
  rewrite E. cbn [ret]. unfold bind at 1.
  rewrite (getOHLCData_success_run w id vs_currency (JS.Integer from)
             (JS.Integer to) interval r rows Hanswer Hok Hjson).
  unfold bind. rewrite toISOString_Integer.
  destruct (Z.leb_spec (Z.abs (from * 1000)) 8640000000000000); [|lia].
  cbn beta iota. rewrite toISOString_Integer.
  destruct (Z.leb_spec (Z.abs (to * 1000)) 8640000000000000); [|lia].
  eexists. split; [reflexivity|]. split; [reflexivity|].
  now apply GetOHLCData_interval in E.
Qed.

(** ** The process *)

Lemma handler_refresh_run (w : World) (args : Value) :
  handler {| CallToolRequest.name := "refresh-cache";
             CallToolRequest.arguments := args |} w
  = match refreshCoinList w with
    | (w1, Return _) =>
        (w1, Return (CacheRefreshed (option_map ISO (lastUpdated (this w1)))))
    | (w1, Throw e) =>
        (w1, Throw (match e with
                    | ZodError errors => Error (invalid_arguments errors)
                    | Error _ => e
                    end))
    end.
Proof.
  unfold handler. cbn [CallToolRequest.name CallToolRequest.arguments].
  cbn [String.eqb Ascii.eqb Bool.eqb]. unfold try_catch, bind at 1.
  destruct (refreshCoinList w) as [w1 [[]|e]]; [reflexivity|].
  destruct e; reflexivity.
Qed.

Lemma handler_service_step (w : World) (request : CallToolRequest.params) :
  this (fst (handler request w)) = this w
  \/ (apiKey (this (fst (handler request w))) = apiKey (this w)
      /\ lastUpdated (this (fst (handler request w))) <> None).
Proof.
  destruct (String.eqb_spec (CallToolRequest.name request) "refresh-cache")
    as [E|N]; [|left; now apply keeps_handler].
  destruct request as [name args]. cbn in E. subst name.
  rewrite handler_refresh_run.
  destruct (refreshCoinList_cases w) as [(r & fresh & Ha & Hok & Hj) | (e & F)].
  - rewrite (refreshCoinList_success_run w r fresh Ha Hok Hj).
    right. cbn. split; [reflexivity | discriminate].
  - rewrite (refreshCoinList_failure_run w e F). now left.
Qed.

(** X28. However many tool calls a process handles after it has built its cache
    object, and whatever the upstream answers: every call gets its outcome,
    the API key is the one given at construction, and a cache that was
    never refreshed holds no record. *)
Theorem serve_keeps_cache_consistent (key : string)
  (calls : list CallToolRequest.params) :
  List.length (snd (serve calls (initial key))) = List.length calls
  /\ apiKey (this (fst (serve calls (initial key)))) = key
  /\ Consistent (this (fst (serve calls (initial key)))).
Proof.
  assert (G : forall w,
             List.length (snd (serve calls w)) = List.length calls
             /\ apiKey (this (fst (serve calls w))) = apiKey (this w)
             /\ (Consistent (this w) ->
                 Consistent (this (fst (serve calls w))))).
  { induction calls as [|call rest IH]; intros w; [now repeat split|].
    cbn [serve]. pose proof (handler_service_step w call) as S.
    destruct (handler call w) as [w1 c]. cbn [fst] in S.
    specialize (IH w1). destruct (serve rest w1) as [w2 cs]. cbn in *.
    destruct IH as (L & K & C). split; [now rewrite L|].
    destruct S as [T | [Ka Lu]].
    - rewrite T in *. split; [exact K | exact C].
    - split; [congruence|]. intros _. apply C. intros Hn. contradiction. }
  destruct (G (initial key)) as (L & K & C).
  split; [exact L|]. split; [exact K|]. apply C. intros _. reflexivity.
Qed.

(** X29. Once the cache has been refreshed, no tool call makes it lose its
    [lastUpdated]. *)
Theorem serve_keeps_lastUpdated (w : World)
  (calls : list CallToolRequest.params) :
  lastUpdated (this w) <> None ->
  lastUpdated (this (fst (serve calls w))) <> None.
Proof.
  revert w. induction calls as [|call rest IH]; intros w H; [exact H|].
  cbn [serve]. pose proof (handler_service_step w call) as S.
  destruct (handler call w) as [w1 c]. cbn [fst] in S.
  specialize (IH w1). destruct (serve rest w1) as [w2 cs]. cbn in *.
  apply IH. destruct S as [T | [_ Lu]]; [now rewrite T | exact Lu].
Qed.

(** X30. Start-up: the process goes on when the upstream gave the catalogue,
    which the cache then holds; otherwise it exits with code 1, its cache
    empty, after two lines on the console. *)
Theorem start_outcome (key : string) :
  match start key with
  | Running w =>
      exists r fresh,
        coins_list upstream [] (refresh_request (initial key)) = Return r
        /\ ok r = true /\ json r = Return fresh
        /\ coins (this w) = fresh
        /\ lastUpdated (this w) <> None
  | Exited code w =>
      code = 1
      /\ this w = constructor key
      /\ exists e,
           UpstreamFailure
             (coins_list upstream [] (refresh_request (initial key))) e
           /\ console w
              = [[LogString "Error refreshing coin cache:"; LogThrown e];
                 [LogString "Failed to initialize coin cache:"; LogThrown e]]
  end.
Proof.
  unfold start.
  destruct (refreshCoinList_cases (initial key))
    as [(r & fresh & Ha & Hok & Hj) | (e & F)].
  - rewrite (refreshCoinList_success_run _ r fresh Ha Hok Hj).
    exists r, fresh. cbn. repeat split; try assumption. discriminate.
  - rewrite (refreshCoinList_failure_run _ e F). cbn.
    repeat split. now exists e.
Qed.

End Program.

Arguments refreshCoinList {num}.
Arguments getHistoricalData {num}.
Arguments getOHLCData {num}.
Arguments reshape {num}.
Arguments handler {num}.
Arguments server_handler {num}.
Arguments serve {num}.
Arguments start {num}.
Arguments share {num}.
Arguments Shared {num}.
Arguments OHLCRange {num}.

(* ================================================================== *)
(** * The properties on sample data *)
(* ================================================================== *)

(** The lookup of the catalogue's example: symbols and names are matched
    whatever their case, and an unknown name gets null. *)
Example findCoinIds_bitcoin :
  findCoinIds asciiToLowerCase ["BTC"; "bitcoin"; "doesnotexist"]
    (world_with [ethereum; bitcoin])
  = (world_with [ethereum; bitcoin],
     Return [CoinId.mk "BTC" (Some "bitcoin");
             CoinId.mk "bitcoin" (Some "bitcoin");
             CoinId.mk "doesnotexist" None]).
Proof. reflexivity. Qed.

(** A name that is only a part of a record's name is not a match. *)
Example findCoinIds_no_partial_match :
  findCoinIds asciiToLowerCase ["bit"; "Bitcoin Cash"]
    (world_with [ethereum; bitcoin])
  = (world_with [ethereum; bitcoin],
     Return [CoinId.mk "bit" None; CoinId.mk "Bitcoin Cash" None]).
Proof. reflexivity. Qed.

Example getTotalPages_empty :
  getTotalPages (Some (JS.Integer 100)) (world_with [])
  = (world_with [], Return (JS.Integer 0)).
Proof. reflexivity. Qed.

Example getCoins_last_page :
  getCoins (Some (JS.Integer 2)) (Some (JS.Integer 2))
    (world_with [bitcoin; ethereum; tether])
  = (world_with [bitcoin; ethereum; tether], Return [tether]).
Proof. reflexivity. Qed.

(** The arithmetic of doubles on the fractions of the examples: 3/2 is the
    double 1.5, and (2 - 1) * 1.5 + 1.5 is the integer 3. *)
Example one_and_a_half_arithmetic :
  one_and_a_half = JS.Double (S754_finite false 6755399441055744 (-52))
  /\ JS.fraction one_and_a_half = Some (3, 2)
  /\ JS.mul (JS.sub (JS.Integer 2) (JS.Integer 1)) one_and_a_half
     = one_and_a_half
  /\ JS.add one_and_a_half one_and_a_half = JS.Integer 3.
Proof.
  split; [vm_compute; reflexivity|]. split; [vm_compute; reflexivity|].
  split; vm_compute; reflexivity.
Qed.

(** Between integers the exact operations are those of the doubles. *)
Example integer_arithmetic_is_double_arithmetic :
  JS.of_double (SFmul JS.prec JS.emax (JS.to_double (JS.Integer 7))
                  (JS.to_double (JS.Integer 100)))
  = JS.mul (JS.Integer 7) (JS.Integer 100)
  /\ JS.of_double (SFadd JS.prec JS.emax (JS.to_double (JS.Integer 700))
                     (JS.to_double (JS.Integer 100)))
     = JS.add (JS.Integer 700) (JS.Integer 100)
  /\ JS.of_double (SFsub JS.prec JS.emax (JS.to_double (JS.Integer 1))
                     (JS.to_double (JS.Integer 8)))
     = JS.sub (JS.Integer 1) (JS.Integer 8)
  /\ JS.ceil (JS.div (JS.Integer 250) (JS.Integer 100))
     = JS.ceil_div 250 (JS.Integer 100)
  /\ forallb
       (fun n =>
          forallb
            (fun d =>
               match JS.ceil (JS.div (JS.Integer (Z.of_nat n))
                                (JS.Integer (Z.of_nat d))),
                     JS.ceil_div n (JS.Integer (Z.of_nat d)) with
               | JS.Integer a, JS.Integer b => (a =? b)%Z
               | _, _ => false
               end)
            (seq 1 12))
       (seq 0 40)
     = true.
Proof.
  split; [vm_compute; reflexivity|]. split; [vm_compute; reflexivity|].
  split; [vm_compute; reflexivity|]. split; vm_compute; reflexivity.
Qed.

(** C1, as it was stated, fails on a snapshot whose only record has the
    empty string as its id: the record answers the query ["x"], and the
    result carries null, not the record's id. *)
Lemma findCoinIds_first_id_counterexample :
  exists results,
    findCoinIds asciiToLowerCase ["x"] (world_with [nameless])
    = (world_with [nameless], Return results)
    /\ results = [CoinId.mk "x" None]
    /\ FirstMatch asciiToLowerCase "x" [nameless] (Some nameless)
    /\ ~ pairs_with_first_id asciiToLowerCase [nameless] ["x"] results.
Proof.
  eexists. split; [reflexivity|]. split; [reflexivity|]. split.
  - apply (first_match_some asciiToLowerCase "x" [] nameless []).
    + intros c [].
    + right. reflexivity.
  - intros H. inversion H as [|query r qs rs [_ (m & F & I)] _]; subst.
    apply FirstMatch_find in F. cbn in F. subst m. discriminate.
Qed.

(** C2, as it was stated, fails for a page size that is not an integer:
    with 1.5 records a page, a number between 1 and 1000 that the schema of
    [get-coins] accepts, page 2 of a snapshot of three records runs from
    index 1.5 to index 3, which [slice] cuts to 1 and 3, and holds two
    records: more than 1.5. *)
Lemma getCoins_fractional_pageSize_counterexample :
  JS.fraction one_and_a_half = Some (3, 2)
  /\ 1 * 2 <= 3 <= 1000 * 2
  /\ Zod.safeParse Zod.defaultErrorMap GetCoinsArgumentsSchema
       (VObject [("page", VNumber (JS.Integer 2));
                 ("pageSize", VNumber one_and_a_half)])
     = inr (Some (JS.Integer 2), (Some one_and_a_half, tt))
  /\ getCoins (Some (JS.Integer 2)) (Some one_and_a_half) catalogue
     = (catalogue, Return [ethereum; tether])
  /\ 3 < Z.of_nat (List.length [ethereum; tether]) * 2.
Proof.
  split; [vm_compute; reflexivity|]. split; [lia|].
  split; [vm_compute; reflexivity|]. split; [vm_compute; reflexivity|].
  reflexivity.
Qed.

(** C4, as it was stated, fails for a page that is not an integer: on a
    snapshot of one record and with one record a page there is one page,
    and page 1.5, which is at least 1 and after the last page, runs from
    index 0.5 to index 1.5, which [slice] cuts to 0 and 1: it holds the
    record, and is not empty. *)
Lemma getCoins_fractional_page_counterexample :
  JS.fraction one_and_a_half = Some (3, 2)
  /\ 1 * 2 <= 3
  /\ getTotalPages (Some (JS.Integer 1)) (world_with [bitcoin])
     = (world_with [bitcoin], Return (JS.Integer 1))
  /\ 1 * 2 < 3
  /\ getCoins (Some one_and_a_half) (Some (JS.Integer 1)) (world_with [bitcoin])
     = (world_with [bitcoin], Return [bitcoin])
  /\ [bitcoin] <> [].
Proof.
  split; [vm_compute; reflexivity|]. split; [lia|].
  split; [vm_compute; reflexivity|]. split; [lia|].
  split; [vm_compute; reflexivity | discriminate].
Qed.

(** C5, as it was stated, fails for a page size that is not an integer: for
    four records and the page size 1.3333333333333333, a number between 1
    and 1000, the quotient is rounded to 3 as it is computed, and 3 is
    returned, although three pages of that size hold fewer than four
    records, the page size being taken as the decimal that is written or as
    the exact value of the double: the ceiling of the quotient is 4. *)
Lemma getTotalPages_fractional_pageSize_counterexample :
  JS.fraction one_and_a_third = Some (6004799503160661, 4503599627370496)
  /\ 1 * 4503599627370496 <= 6004799503160661 <= 1000 * 4503599627370496
  /\ getTotalPages (Some one_and_a_third)
       (world_with [bitcoin; ethereum; tether; nameless])
     = (world_with [bitcoin; ethereum; tether; nameless],
        Return (JS.Integer 3))
  /\ 3 * 6004799503160661 < 4 * 4503599627370496
  /\ 3 * 13333333333333333 < 4 * 10000000000000000.
Proof.
  split; [vm_compute; reflexivity|]. split; [lia|].
  split; [vm_compute; reflexivity|]. split; reflexivity.
Qed.

(** A page size of 0, which the schema refuses and [getTotalPages] does not:
    the page count is infinite, and it is NaN for an empty cache. *)
Example getTotalPages_of_zero :
  getTotalPages (Some (JS.Integer 0)) catalogue
  = (catalogue, Return JS.Infinity)
  /\ getTotalPages (Some (JS.Integer 0)) (world_with [])
     = (world_with [], Return JS.NaN).
Proof. split; reflexivity. Qed.

Lemma getTotalPages_is_ceiling_witness :
  1 <= 2 <= 1000
  /\ exists k,
       getTotalPages (Some (JS.Integer 2)) (world_with [bitcoin; ethereum; tether])
       = (world_with [bitcoin; ethereum; tether], Return (JS.Integer k))
       /\ (k - 1) * 2
          < Z.of_nat (List.length
                        (coins (this (world_with [bitcoin; ethereum; tether]))))
          <= k * 2
       /\ (coins (this (world_with [bitcoin; ethereum; tether])) = [] -> k = 0).
Proof.
  split; [lia|].
  apply (getTotalPages_is_ceiling (world_with [bitcoin; ethereum; tether]) 2).
  lia.
Defined.

Lemma getCoins_is_slice_witness :
  1 <= 2 /\ 1 <= 2 <= 1000
  /\ exists result,
       getCoins (Some (JS.Integer 2)) (Some (JS.Integer 2))
         (world_with [bitcoin; ethereum; tether])
       = (world_with [bitcoin; ethereum; tether], Return result)
       /\ (forall i : nat,
             nth_error result i
             = if (Z.of_nat i <? 2)%Z
               then nth_error
                      (coins (this (world_with [bitcoin; ethereum; tether])))
                      (Z.to_nat ((2 - 1) * 2) + i)
               else None)
       /\ (forall k,
             getTotalPages (Some (JS.Integer 2))
               (world_with [bitcoin; ethereum; tether])
             = (world_with [bitcoin; ethereum; tether], Return (JS.Integer k)) ->
             k < 2 -> result = []).
Proof.
  split; [lia|]. split; [lia|].
  apply (getCoins_is_slice (world_with [bitcoin; ethereum; tether]) 2 2); lia.
Defined.

Lemma getCoins_pages_partition_witness :
  1 <= 2 <= 1000
  /\ (forall page, 1 <= page ->
        exists result,
          getCoins (Some (JS.Integer page)) (Some (JS.Integer 2))
            (world_with [bitcoin; ethereum; tether])
          = (world_with [bitcoin; ethereum; tether], Return result)
          /\ Z.of_nat (List.length result) <= 2)
  /\ exists (total : nat) (pages : list (list CoinInfo.t)),
       getTotalPages (Some (JS.Integer 2))
         (world_with [bitcoin; ethereum; tether])
       = (world_with [bitcoin; ethereum; tether],
          Return (JS.Integer (Z.of_nat total)))
       /\ mapM (fun p => getCoins (Some (JS.Integer p)) (Some (JS.Integer 2)))
               (map Z.of_nat (seq 1 total))
               (world_with [bitcoin; ethereum; tether])
          = (world_with [bitcoin; ethereum; tether], Return pages)
       /\ List.concat pages
          = coins (this (world_with [bitcoin; ethereum; tether])).
Proof.
  split; [lia|].
  apply (getCoins_pages_partition (world_with [bitcoin; ethereum; tether]) 2).
  lia.
Defined.

(** A refresh answered by a status 500, on a cache that holds bitcoin. *)
Lemma refreshCoinList_failure_keeps_cache_witness :
  UpstreamFailure
    (coins_list (upstream_with (Return server_error) (Throw (Error "unused")))
       (requests (world_with [bitcoin])) (refresh_request (world_with [bitcoin])))
    (Error "API request failed: Internal Server Error")
  /\ exists w',
       refreshCoinList
         (upstream_with (Return server_error) (Throw (Error "unused")))
         (world_with [bitcoin])
       = (w', Throw (Error "API request failed: Internal Server Error"))
       /\ coins (this w') = coins (this (world_with [bitcoin]))
       /\ lastUpdated (this w') = lastUpdated (this (world_with [bitcoin]))
       /\ (forall page pageSize,
             snd (getCoins page pageSize w')
             = snd (getCoins page pageSize (world_with [bitcoin])))
       /\ (forall coinNames,
             snd (findCoinIds asciiToLowerCase coinNames w')
             = snd (findCoinIds asciiToLowerCase coinNames
                      (world_with [bitcoin])))
       /\ snd (getLastUpdated w') = snd (getLastUpdated (world_with [bitcoin])).
Proof.
  split.
  - apply (status_failure server_error). reflexivity.
  - apply (refreshCoinList_failure_keeps_cache Z asciiToLowerCase
             (upstream_with (Return server_error) (Throw (Error "unused")))
             (world_with [bitcoin])).
    apply (status_failure server_error). reflexivity.
Defined.

(** A refresh answered by a catalogue that holds ethereum only, on a cache
    that holds bitcoin. *)
Lemma refreshCoinList_replaces_cache_witness :
  coins_list (upstream_with (Return (success [ethereum]))
                (Throw (Error "unused")))
    (requests (world_with [bitcoin])) (refresh_request (world_with [bitcoin]))
  = Return (success [ethereum])
  /\ ok (success [ethereum]) = true
  /\ json (success [ethereum]) = Return [ethereum]
  /\ exists w',
       refreshCoinList
         (upstream_with (Return (success [ethereum])) (Throw (Error "unused")))
         (world_with [bitcoin])
       = (w', Return tt)
       /\ coins (this w') = [ethereum]
       /\ lastUpdated (this w')
          = Some (clock (upstream_with (Return (success [ethereum]))
                           (Throw (Error "unused")))
                    (requests (world_with [bitcoin])
                     ++ [refresh_request (world_with [bitcoin])])%list)
       /\ (forall c page pageSize result,
             In c (coins (this (world_with [bitcoin]))) ->
             ~ In c [ethereum] ->
             getCoins page pageSize w' = (w', Return result) ->
             ~ In c result)
       /\ (forall coinNames results res i,
             findCoinIds asciiToLowerCase coinNames w' = (w', Return results) ->
             In res results -> CoinId.id res = Some i ->
             exists c, In c [ethereum] /\ CoinInfo.id c = i).
Proof.
  split; [reflexivity|]. split; [reflexivity|]. split; [reflexivity|].
  apply (refreshCoinList_replaces_cache Z asciiToLowerCase
           (upstream_with (Return (success [ethereum])) (Throw (Error "unused")))
           (world_with [bitcoin]) (success [ethereum]) [ethereum]);
    reflexivity.
Defined.

(** The bar [[1711296000, 65000, 65500, 64800, 65200]]. *)
Lemma getOHLCData_reshapes_witness :
  ohlc_range
    (upstream_with (Throw (Error "unused"))
       (Return (success [[1711296000; 65000; 65500; 64800; 65200]])))
    (requests (world_with []))
    (ohlc_request integerToString (world_with []) "bitcoin" "usd"
       (JS.Integer 1711296000) (JS.Integer 1711382400) "hourly")
  = Return (success [[1711296000; 65000; 65500; 64800; 65200]])
  /\ ok (success [[1711296000; 65000; 65500; 64800; 65200]]) = true
  /\ json (success [[1711296000; 65000; 65500; 64800; 65200]])
     = Return [[1711296000; 65000; 65500; 64800; 65200]]
  /\ Forall (fun row => List.length row = 5%nat)
       [[1711296000; 65000; 65500; 64800; 65200]]
  /\ exists w' bars,
       getOHLCData
         (upstream_with (Throw (Error "unused"))
            (Return (success [[1711296000; 65000; 65500; 64800; 65200]])))
         integerToString "bitcoin" "usd"
         (JS.Integer 1711296000) (JS.Integer 1711382400) "hourly"
         (world_with [])
       = (w', Return bars)
       /\ Forall2
            (fun row bar =>
               exists t o h l c,
                 row = [t; o; h; l; c]
                 /\ bar = {| timestamp := Some t; open := Some o;
                             high := Some h; low := Some l; close := Some c |})
            [[1711296000; 65000; 65500; 64800; 65200]] bars.
Proof.
  split; [reflexivity|]. split; [reflexivity|]. split; [reflexivity|].
  split; [repeat constructor|].
  apply (getOHLCData_reshapes Z
           (upstream_with (Throw (Error "unused"))
              (Return (success [[1711296000; 65000; 65500; 64800; 65200]])))
           integerToString
           (world_with []) "bitcoin" "usd"
           (JS.Integer 1711296000) (JS.Integer 1711382400) "hourly"
           (success [[1711296000; 65000; 65500; 64800; 65200]])
           [[1711296000; 65000; 65500; 64800; 65200]]);
    try reflexivity.
  repeat constructor.
Defined.

Example getOHLCData_bar :
  snd (getOHLCData
         (upstream_with (Throw (Error "unused"))
            (Return (success [[1711296000; 65000; 65500; 64800; 65200]])))
         integerToString "bitcoin" "usd"
         (JS.Integer 1711296000) (JS.Integer 1711382400) "hourly"
         (world_with []))
  = Return [{| timestamp := Some 1711296000; open := Some 65000;
               high := Some 65500; low := Some 64800; close := Some 65200 |}].
Proof. reflexivity. Qed.

Example ohlc_request_url :
  url (ohlc_request integerToString (world_with []) "bitcoin" "usd"
         (JS.Integer 1711296000) (JS.Integer 1711382400) "hourly")
  = "https://pro-api.coingecko.com/api/v3/coins/bitcoin/ohlc/range?vs_currency=usd&from=1711296000&to=1711382400&interval=hourly".
Proof. reflexivity. Qed.


Example handler_page_size_5000 :
  handler asciiToLowerCase
    (upstream_with (Throw (Error "unused")) (Throw (Error "unused")))
    Zod.defaultErrorMap integerToString too_many_per_page (world_with [bitcoin])
  = (world_with [bitcoin],
     Throw (Error
       "Invalid arguments: pageSize: Number must be less than or equal to 1000")).
Proof. reflexivity. Qed.

(** Other rejected argument bags: a missing required field, a value of the
    wrong type, and no bag at all. *)
Example handler_missing_field :
  handler asciiToLowerCase
    (upstream_with (Throw (Error "unused")) (Throw (Error "unused")))
    Zod.defaultErrorMap integerToString
    {| CallToolRequest.name := "find-coin-ids";
       CallToolRequest.arguments := VObject [] |}
    (world_with [bitcoin])
  = (world_with [bitcoin], Throw (Error "Invalid arguments: coins: Required")).
Proof. reflexivity. Qed.

Example handler_wrong_type :
  handler asciiToLowerCase
    (upstream_with (Throw (Error "unused")) (Throw (Error "unused")))
    Zod.defaultErrorMap integerToString
    {| CallToolRequest.name := "get-coins";
       CallToolRequest.arguments :=
         VObject [("page", VString "2");
                  ("pageSize", VNumber (JS.Integer 0))] |}
    (world_with [bitcoin])
  = (world_with [bitcoin],
     Throw (Error
       "Invalid arguments: page: Expected number, received string, pageSize: Number must be greater than or equal to 1")).
Proof. reflexivity. Qed.

Example handler_not_a_number :
  handler asciiToLowerCase
    (upstream_with (Throw (Error "unused")) (Throw (Error "unused")))
    Zod.defaultErrorMap integerToString
    {| CallToolRequest.name := "get-coins";
       CallToolRequest.arguments := VObject [("page", VNumber JS.NaN)] |}
    (world_with [bitcoin])
  = (world_with [bitcoin],
     Throw (Error "Invalid arguments: page: Expected number, received nan")).
Proof. reflexivity. Qed.

Example handler_no_arguments :
  handler asciiToLowerCase
    (upstream_with (Throw (Error "unused")) (Throw (Error "unused")))
    Zod.defaultErrorMap integerToString
    {| CallToolRequest.name := "get-coins";
       CallToolRequest.arguments := VUndefined |}
    (world_with [bitcoin])
  = (world_with [bitcoin], Throw (Error "Invalid arguments: : Required")).
Proof. reflexivity. Qed.

Example handler_get_coins :
  handler asciiToLowerCase
    (upstream_with (Throw (Error "unused")) (Throw (Error "unused")))
    Zod.defaultErrorMap integerToString
    {| CallToolRequest.name := "get-coins";
       CallToolRequest.arguments :=
         VObject [("pageSize", VNumber (JS.Integer 2))] |}
    (world_with [bitcoin; ethereum; tether])
  = (world_with [bitcoin; ethereum; tether],
     Return (CoinsPage Z [bitcoin; ethereum] (JS.Integer 1) (JS.Integer 2)
               (JS.Integer 2) None)).
Proof. reflexivity. Qed.

(** A page size that is not an integer passes the schema: the call of
    [get-coins] with [{ page: 2, pageSize: 1.5 }] answers with two
    records. *)
Example handler_get_coins_fraction :
  handler asciiToLowerCase
    (upstream_with (Throw (Error "unused")) (Throw (Error "unused")))
    Zod.defaultErrorMap integerToString
    {| CallToolRequest.name := "get-coins";
       CallToolRequest.arguments :=
         VObject [("page", VNumber (JS.Integer 2));
                  ("pageSize", VNumber one_and_a_half)] |}
    catalogue
  = (catalogue,
     Return (CoinsPage Z [ethereum; tether] (JS.Integer 2) (JS.Integer 2)
               one_and_a_half None)).
Proof. vm_compute. reflexivity. Qed.

(* ================================================================== *)
(** * The further properties on sample data *)
(* ================================================================== *)

Lemma getCoins_full_pages_witness :
  1 <= 2 /\ 1 <= 1
  /\ getTotalPages (Some (JS.Integer 2)) catalogue
     = (catalogue, Return (JS.Integer 2))
  /\ exists result,
       getCoins (Some (JS.Integer 1)) (Some (JS.Integer 2)) catalogue
       = (catalogue, Return result)
       /\ (1 < 2 -> Z.of_nat (List.length result) = 2)
       /\ (1 = 2 -> 1 <= Z.of_nat (List.length result) <= 2).
Proof.
  split; [lia|]. split; [lia|]. split; [reflexivity|].
  apply (getCoins_full_pages catalogue 1 2 2); [lia | lia | reflexivity].
Defined.

Lemma getCoins_locates_record_witness :
  1 <= 2
  /\ nth_error (coins (this catalogue)) 2 = Some tether
  /\ exists result,
       getCoins (Some (JS.Integer (Z.of_nat 2 / 2 + 1))) (Some (JS.Integer 2))
         catalogue
       = (catalogue, Return result)
       /\ nth_error result (Z.to_nat (Z.of_nat 2 mod 2)) = Some tether.
Proof.
  split; [lia|]. split; [reflexivity|].
  apply (getCoins_locates_record catalogue 2 2 tether); [lia | reflexivity].
Defined.

Lemma getCoins_degenerate_witness :
  (0 = 0 \/ 2 = 0)
  /\ getCoins (Some (JS.Integer 0)) (Some (JS.Integer 2)) catalogue
     = (catalogue, Return []).
Proof.
  split; [left; reflexivity|].
  apply (getCoins_degenerate catalogue 0 2). left. reflexivity.
Defined.

Lemma getCoins_negative_pageSize_witness :
  0 < 1 /\ 1 <= 1
  /\ getCoins (Some (JS.Integer 1)) (Some (JS.Integer (- (1)))) catalogue
     = (catalogue,
        Return (if (1 =? 1)%Z
                then firstn (List.length (coins (this catalogue)) - Z.to_nat 1)
                       (coins (this catalogue))
                else [])).
Proof.
  split; [lia|]. split; [lia|].
  apply (getCoins_negative_pageSize catalogue 1 1); lia.
Defined.

(** The first page of size -1 holds bitcoin and ethereum, not tether. *)
Example getCoins_minus_one :
  getCoins (Some (JS.Integer 1)) (Some (JS.Integer (-1))) catalogue
  = (catalogue, Return [bitcoin; ethereum]).
Proof. reflexivity. Qed.

(** With a page size that is not an integer the pages are not what the
    integers give: for the page size -0.5, page 2 is not empty, and for
    -1.5 the first page loses one record, not one and a half. *)
Example getCoins_minus_a_half :
  getCoins (Some (JS.Integer 2))
    (Some (JS.div (JS.Integer (-1)) (JS.Integer 2))) catalogue
  = (catalogue, Return [bitcoin; ethereum])
  /\ getCoins (Some (JS.Integer 1))
       (Some (JS.div (JS.Integer (-3)) (JS.Integer 2))) catalogue
     = (catalogue, Return [bitcoin; ethereum]).
Proof. split; vm_compute; reflexivity. Qed.

Lemma getTotalPages_monotone_witness :
  1 <= 1 <= 2
  /\ exists k k',
       getTotalPages (Some (JS.Integer 1)) catalogue
       = (catalogue, Return (JS.Integer k))
       /\ getTotalPages (Some (JS.Integer 2)) catalogue
          = (catalogue, Return (JS.Integer k'))
       /\ 0 <= k' <= k
       /\ k <= Z.of_nat (List.length (coins (this catalogue)))
       /\ (k = 0 <-> coins (this catalogue) = []).
Proof.
  split; [lia|]. apply (getTotalPages_monotone catalogue 1 2). lia.
Defined.

Lemma findCoinIds_case_insensitive_witness :
  map asciiToLowerCase ["BTC"; "Ethereum"]
  = map asciiToLowerCase ["btc"; "ETHEREUM"]
  /\ exists results results',
       findCoinIds asciiToLowerCase ["BTC"; "Ethereum"] catalogue
       = (catalogue, Return results)
       /\ findCoinIds asciiToLowerCase ["btc"; "ETHEREUM"] catalogue
          = (catalogue, Return results')
       /\ map CoinId.id results = map CoinId.id results'.
Proof.
  split; [reflexivity|].
  apply (findCoinIds_case_insensitive asciiToLowerCase catalogue
           ["BTC"; "Ethereum"] ["btc"; "ETHEREUM"]).
  reflexivity.
Defined.

Lemma findCoinIds_stable_under_append_witness :
  coins (this (world_with [bitcoin; ethereum]))
  = (coins (this (world_with [bitcoin])) ++ [ethereum])%list
  /\ exists results results',
       findCoinIds asciiToLowerCase ["btc"; "eth"] (world_with [bitcoin])
       = (world_with [bitcoin], Return results)
       /\ findCoinIds asciiToLowerCase ["btc"; "eth"]
            (world_with [bitcoin; ethereum])
          = (world_with [bitcoin; ethereum], Return results')
       /\ Forall2
            (fun r r' =>
               CoinId.name r = CoinId.name r'
               /\ forall i, CoinId.id r = Some i -> CoinId.id r' = Some i)
            results results'.
Proof.
  split; [reflexivity|].
  apply (findCoinIds_stable_under_append asciiToLowerCase
           (world_with [bitcoin]) (world_with [bitcoin; ethereum])
           [ethereum] ["btc"; "eth"]).
  reflexivity.
Defined.

Lemma getOHLCData_any_rows_witness :
  ohlc_range
    (upstream_with (Throw (Error "unused")) (Return (success ragged_rows)))
    (requests (world_with []))
    (ohlc_request integerToString (world_with []) "bitcoin" "usd"
       (JS.Integer 1711296000) (JS.Integer 1711382400) "hourly")
  = Return (success ragged_rows)
  /\ ok (success ragged_rows) = true
  /\ json (success ragged_rows) = Return ragged_rows
  /\ exists w' bars,
       getOHLCData
         (upstream_with (Throw (Error "unused")) (Return (success ragged_rows)))
         integerToString "bitcoin" "usd"
         (JS.Integer 1711296000) (JS.Integer 1711382400) "hourly"
         (world_with [])
       = (w', Return bars)
       /\ Forall2
            (fun row bar =>
               bar = reshape (firstn 5 row)
               /\ (timestamp Z bar = None <-> row = [])
               /\ ((List.length row <= 4)%nat -> close Z bar = None))
            ragged_rows bars.
Proof.
  split; [reflexivity|]. split; [reflexivity|]. split; [reflexivity|].
  apply (getOHLCData_any_rows Z
           (upstream_with (Throw (Error "unused"))
              (Return (success ragged_rows)))
           integerToString (world_with []) "bitcoin" "usd"
           (JS.Integer 1711296000) (JS.Integer 1711382400) "hourly"
           (success ragged_rows) ragged_rows); reflexivity.
Defined.

Example getOHLCData_ragged :
  snd (getOHLCData
         (upstream_with (Throw (Error "unused")) (Return (success ragged_rows)))
         integerToString "bitcoin" "usd"
         (JS.Integer 1711296000) (JS.Integer 1711382400) "hourly"
         (world_with []))
  = Return [{| timestamp := Some 1711296000; open := Some 65000;
               high := Some 65500; low := None; close := None |};
            {| timestamp := None; open := None; high := None;
               low := None; close := None |};
            {| timestamp := Some 1711299600; open := Some 1; high := Some 2;
               low := Some 3; close := Some 4 |}].
Proof. reflexivity. Qed.

Lemma parse_ignores_undeclared_keys_witness :
  (forall k,
     In k (Zod.keys
             (Zod.field "page" (Zod.optional (Zod.number [Zod.min 1]))
                Zod.no_more)) ->
     property [("page", VNumber (JS.Integer 2))] k
     = property [("verbose", VBoolean true); ("page", VNumber (JS.Integer 2))] k)
  /\ Zod.safeParse Zod.defaultErrorMap
       (Zod.object
          (Zod.field "page" (Zod.optional (Zod.number [Zod.min 1]))
             Zod.no_more))
       (VObject [("page", VNumber (JS.Integer 2))])
     = Zod.safeParse Zod.defaultErrorMap
         (Zod.object
            (Zod.field "page" (Zod.optional (Zod.number [Zod.min 1]))
               Zod.no_more))
         (VObject [("verbose", VBoolean true); ("page", VNumber (JS.Integer 2))]).
Proof.
  assert (H : forall k,
             In k (Zod.keys
                     (Zod.field "page" (Zod.optional (Zod.number [Zod.min 1]))
                        Zod.no_more)) ->
             property [("page", VNumber (JS.Integer 2))] k
             = property [("verbose", VBoolean true); ("page", VNumber (JS.Integer 2))] k)
    by (intros k [<-|[]]; reflexivity).
  split; [exact H|].
  apply (parse_ignores_undeclared_keys Zod.defaultErrorMap _
           [("page", VNumber (JS.Integer 2))]
           [("verbose", VBoolean true); ("page", VNumber (JS.Integer 2))] H).
Defined.

Lemma GetCoinsArgumentsSchema_reports_both_witness :
  property zero_and_5000 "page" = VNumber (JS.Integer 0)
  /\ property zero_and_5000 "pageSize" = VNumber (JS.Integer 5000)
  /\ Less (JS.Integer 0) (JS.Integer 1)
  /\ Less (JS.Integer 1000) (JS.Integer 5000)
  /\ Zod.safeParse Zod.defaultErrorMap GetCoinsArgumentsSchema
       (VObject zero_and_5000)
     = inl [Zod.issue Zod.defaultErrorMap (Zod.too_small 1) [Zod.Key "page"];
            Zod.issue Zod.defaultErrorMap (Zod.too_big 1000)
              [Zod.Key "pageSize"]].
Proof.
  split; [reflexivity|]. split; [reflexivity|]. split; [reflexivity|].
  split; [reflexivity|].
  apply (GetCoinsArgumentsSchema_reports_both Zod.defaultErrorMap
           zero_and_5000 (JS.Integer 0) (JS.Integer 5000));
    reflexivity.
Defined.

(** A page of a half and a page size of 1000.5 are reported in the same
    way. *)
Example GetCoinsArgumentsSchema_fractions :
  Zod.safeParse Zod.defaultErrorMap GetCoinsArgumentsSchema
    (VObject [("page", VNumber (JS.div (JS.Integer 1) (JS.Integer 2)));
              ("pageSize", VNumber (JS.div (JS.Integer 2001) (JS.Integer 2)))])
  = inl [Zod.issue Zod.defaultErrorMap (Zod.too_small 1) [Zod.Key "page"];
         Zod.issue Zod.defaultErrorMap (Zod.too_big 1000)
           [Zod.Key "pageSize"]].
Proof. vm_compute. reflexivity. Qed.

Lemma FindCoinIdsArgumentsSchema_reports_item_witness :
  property [("coins", VArray [VString "btc"; VNumber (JS.Integer 7)])] "coins"
  = VArray [VString "btc"; VNumber (JS.Integer 7)]
  /\ nth_error [VString "btc"; VNumber (JS.Integer 7)] 1 = Some (VNumber (JS.Integer 7))
  /\ (forall s, VNumber (JS.Integer 7) <> VString s)
  /\ exists issues,
       Zod.safeParse Zod.defaultErrorMap FindCoinIdsArgumentsSchema
         (VObject [("coins", VArray [VString "btc"; VNumber (JS.Integer 7)])])
       = inl issues
       /\ In (Zod.issue Zod.defaultErrorMap
                (Zod.invalid_type "string" (Zod.getParsedType (VNumber (JS.Integer 7))))
                [Zod.Key "coins"; Zod.Index 1])
             issues.
Proof.
  split; [reflexivity|]. split; [reflexivity|]. split; [discriminate|].
  apply (FindCoinIdsArgumentsSchema_reports_item Zod.defaultErrorMap
           [("coins", VArray [VString "btc"; VNumber (JS.Integer 7)])]
           [VString "btc"; VNumber (JS.Integer 7)] 1 (VNumber (JS.Integer 7)));
    [reflexivity | reflexivity | discriminate].
Defined.

Example handler_item_not_a_string :
  handler asciiToLowerCase
    (upstream_with (Throw (Error "unused")) (Throw (Error "unused")))
    Zod.defaultErrorMap integerToString
    {| CallToolRequest.name := "find-coin-ids";
       CallToolRequest.arguments :=
         VObject [("coins", VArray [VString "btc"; VNumber (JS.Integer 7)])] |}
    catalogue
  = (catalogue,
     Throw (Error "Invalid arguments: coins.1: Expected string, received number")).
Proof. reflexivity. Qed.

Lemma GetOHLCDataArgumentsSchema_narrower_witness :
  Zod.safeParse Zod.defaultErrorMap GetOHLCDataArgumentsSchema
    (range_bag 1711296000 1711382400 "hourly")
  = inr ("bitcoin", ("usd", (JS.Integer 1711296000, (JS.Integer 1711382400, ("hourly", tt)))))
  /\ Zod.safeParse Zod.defaultErrorMap GetHistoricalDataArgumentsSchema
       (range_bag 1711296000 1711382400 "hourly")
     = inr ("bitcoin",
            ("usd", (JS.Integer 1711296000,
                     (JS.Integer 1711382400, (Some "hourly", tt)))))
  /\ ("hourly" = "daily" \/ "hourly" = "hourly").
Proof.
  split; [reflexivity|].
  apply (GetOHLCDataArgumentsSchema_narrower Zod.defaultErrorMap
           (range_bag 1711296000 1711382400 "hourly")
           "bitcoin" "usd" (JS.Integer 1711296000) (JS.Integer 1711382400) "hourly").
  reflexivity.
Defined.

(** The entry point does not know [get-ohlc-data]. *)
Lemma handler_unknown_tool_witness :
  ~ In (CallToolRequest.name
          {| CallToolRequest.name := "get-ohlc-data";
             CallToolRequest.arguments :=
               range_bag 1711296000 1711382400 "hourly" |})
       listed_tools
  /\ handler asciiToLowerCase
       (upstream_with (Throw (Error "unused")) (Throw (Error "unused")))
       Zod.defaultErrorMap integerToString
       {| CallToolRequest.name := "get-ohlc-data";
          CallToolRequest.arguments :=
            range_bag 1711296000 1711382400 "hourly" |}
       catalogue
     = (catalogue,
        Throw (Error ("Unknown tool: "
                      ++ CallToolRequest.name
                           {| CallToolRequest.name := "get-ohlc-data";
                              CallToolRequest.arguments :=
                                range_bag 1711296000 1711382400 "hourly" |}))).
Proof.
  assert (N : ~ In (CallToolRequest.name
                      {| CallToolRequest.name := "get-ohlc-data";
                         CallToolRequest.arguments :=
                           range_bag 1711296000 1711382400 "hourly" |})
                   listed_tools)
    by (intros [H|[H|[H|[H|[]]]]]; discriminate).
  split; [exact N|].
  apply (handler_unknown_tool Z asciiToLowerCase
           (upstream_with (Throw (Error "unused")) (Throw (Error "unused")))
           Zod.defaultErrorMap integerToString catalogue _ N).
Defined.

Lemma handler_only_refresh_changes_cache_witness :
  CallToolRequest.name
    {| CallToolRequest.name := "get-historical-data";
       CallToolRequest.arguments := range_bag 1711296000 1711382400 "hourly" |}
  <> "refresh-cache"
  /\ exists w' c,
       handler asciiToLowerCase upstream_with_chart Zod.defaultErrorMap integerToString
         {| CallToolRequest.name := "get-historical-data";
            CallToolRequest.arguments :=
              range_bag 1711296000 1711382400 "hourly" |}
         catalogue
       = (w', c)
       /\ coins (this w') = coins (this catalogue)
       /\ lastUpdated (this w') = lastUpdated (this catalogue)
       /\ apiKey (this w') = apiKey (this catalogue).
Proof.
  split; [discriminate|].
  apply (handler_only_refresh_changes_cache Z asciiToLowerCase
           upstream_with_chart Zod.defaultErrorMap integerToString catalogue
           {| CallToolRequest.name := "get-historical-data";
              CallToolRequest.arguments :=
                range_bag 1711296000 1711382400 "hourly" |}).
  discriminate.
Defined.

Lemma handler_get_coins_page_witness :
  Zod.safeParse Zod.defaultErrorMap GetCoinsArgumentsSchema
    (VObject [("page", VNumber (JS.Integer 2));
              ("pageSize", VNumber (JS.Integer 2))])
  = inr (option_map JS.Integer (Some 2), (option_map JS.Integer (Some 2), tt))
  /\ exists records total,
       handler asciiToLowerCase
         (upstream_with (Throw (Error "unused")) (Throw (Error "unused")))
         Zod.defaultErrorMap integerToString
         {| CallToolRequest.name := "get-coins";
            CallToolRequest.arguments :=
              VObject [("page", VNumber (JS.Integer 2));
                       ("pageSize", VNumber (JS.Integer 2))] |}
         catalogue
       = (catalogue,
          Return (CoinsPage Z records (JS.Integer (JS.default 1 (Some 2)))
                    (JS.Integer total)
                    (JS.Integer (JS.default 100 (Some 2)))
                    (option_map ISO (lastUpdated (this catalogue)))))
       /\ getCoins (option_map JS.Integer (Some 2))
            (option_map JS.Integer (Some 2)) catalogue
          = (catalogue, Return records)
       /\ 1 <= JS.default 1 (Some 2)
       /\ Z.of_nat (List.length records) <= JS.default 100 (Some 2) <= 1000
       /\ (records = [] <-> total < JS.default 1 (Some 2)).
Proof.
  split; [reflexivity|].
  apply (handler_get_coins_page Z asciiToLowerCase
           (upstream_with (Throw (Error "unused")) (Throw (Error "unused")))
           Zod.defaultErrorMap integerToString catalogue
           (VObject [("page", VNumber (JS.Integer 2));
                     ("pageSize", VNumber (JS.Integer 2))])
           (Some 2) (Some 2)).
  reflexivity.
Defined.

Lemma handler_find_coin_ids_witness :
  property [("coins", VArray [VString "BTC"; VString "nope"])] "coins"
  = VArray (map VString ["BTC"; "nope"])
  /\ exists results,
       findCoinIds asciiToLowerCase ["BTC"; "nope"] catalogue
       = (catalogue, Return results)
       /\ handler asciiToLowerCase
            (upstream_with (Throw (Error "unused")) (Throw (Error "unused")))
            Zod.defaultErrorMap integerToString
            {| CallToolRequest.name := "find-coin-ids";
               CallToolRequest.arguments :=
                 VObject [("coins", VArray [VString "BTC"; VString "nope"])] |}
            catalogue
          = (catalogue, Return (CoinIds Z results)).
Proof.
  split; [reflexivity|].
  apply (handler_find_coin_ids Z asciiToLowerCase
           (upstream_with (Throw (Error "unused")) (Throw (Error "unused")))
           Zod.defaultErrorMap integerToString catalogue
           [("coins", VArray [VString "BTC"; VString "nope"])]
           ["BTC"; "nope"]).
  reflexivity.
Defined.

(** A range that starts 9e12 seconds after the epoch, past the last
    [Date]. *)
Lemma handler_historical_invalid_time_witness :
  Zod.safeParse Zod.defaultErrorMap GetHistoricalDataArgumentsSchema
    (range_bag 9000000000000 9000000086400 "daily")
  = inr ("bitcoin",
         ("usd", (JS.Integer 9000000000000,
                  (JS.Integer 9000000086400, (Some "daily", tt)))))
  /\ market_chart_range upstream_with_chart (requests catalogue)
       (historical_request integerToString catalogue "bitcoin" "usd"
          (JS.Integer 9000000000000) (JS.Integer 9000000086400) (Some "daily"))
     = Return (success chart)
  /\ ok (success chart) = true
  /\ json (success chart) = Return chart
  /\ (8640000000000000 < Z.abs (9000000000000 * 1000)
      \/ 8640000000000000 < Z.abs (9000000086400 * 1000))
  /\ exists w',
       handler asciiToLowerCase upstream_with_chart Zod.defaultErrorMap
         integerToString
         {| CallToolRequest.name := "get-historical-data";
            CallToolRequest.arguments :=
              range_bag 9000000000000 9000000086400 "daily" |}
         catalogue
       = (w', Throw (Error "Invalid time value"))
       /\ requests w'
          = (requests catalogue
             ++ [historical_request integerToString catalogue "bitcoin" "usd"
                   (JS.Integer 9000000000000) (JS.Integer 9000000086400)
                   (Some "daily")])%list
       /\ this w' = this catalogue.
Proof.
  split; [reflexivity|]. split; [reflexivity|]. split; [reflexivity|].
  split; [reflexivity|]. split; [left; lia|].
  apply (handler_historical_invalid_time Z asciiToLowerCase
           upstream_with_chart Zod.defaultErrorMap integerToString catalogue
           (range_bag 9000000000000 9000000086400 "daily")
           "bitcoin" "usd" 9000000000000 9000000086400 (Some "daily")
           (success chart) chart);
    try reflexivity.
  left. lia.
Defined.

(** An infinite time is a number for the schema, and no [Date]. *)
Example handler_historical_infinite_time :
  snd (handler asciiToLowerCase upstream_with_chart Zod.defaultErrorMap
         integerToString
         {| CallToolRequest.name := "get-historical-data";
            CallToolRequest.arguments :=
              VObject [("id", VString "bitcoin"); ("vs_currency", VString "usd");
                       ("from", VNumber (JS.Integer 1711296000));
                       ("to", VNumber JS.Infinity)] |}
         catalogue)
  = Throw (Error "Invalid time value").
Proof. vm_compute. reflexivity. Qed.

Lemma server_handler_agrees_witness :
  CallToolRequest.name too_many_per_page <> "get-ohlc-data"
  /\ server_handler asciiToLowerCase
       (upstream_with (Throw (Error "unused")) (Throw (Error "unused")))
       Zod.defaultErrorMap integerToString too_many_per_page catalogue
     = (fst (handler asciiToLowerCase
               (upstream_with (Throw (Error "unused")) (Throw (Error "unused")))
               Zod.defaultErrorMap integerToString too_many_per_page catalogue),
        share (snd (handler asciiToLowerCase
                      (upstream_with (Throw (Error "unused"))
                         (Throw (Error "unused")))
                      Zod.defaultErrorMap integerToString too_many_per_page catalogue))).
Proof.
  split; [discriminate|].
  apply (server_handler_agrees Z asciiToLowerCase
           (upstream_with (Throw (Error "unused")) (Throw (Error "unused")))
           Zod.defaultErrorMap integerToString catalogue too_many_per_page).
  discriminate.
Defined.

(** The interval [5m], which [get-historical-data] takes, is not one of
    [get-ohlc-data]. *)
Lemma server_handler_rejects_ohlc_arguments_witness :
  Zod.safeParse Zod.defaultErrorMap GetOHLCDataArgumentsSchema
    (range_bag 1711296000 1711382400 "5m")
  = inl [Zod.issue Zod.defaultErrorMap
           (Zod.invalid_enum_value ["daily"; "hourly"] "5m")
           [Zod.Key "interval"]]
  /\ server_handler asciiToLowerCase
       (upstream_with (Throw (Error "unused")) (Throw (Error "unused")))
       Zod.defaultErrorMap integerToString
       {| CallToolRequest.name := "get-ohlc-data";
          CallToolRequest.arguments := range_bag 1711296000 1711382400 "5m" |}
       catalogue
     = (catalogue,
        Throw (Error (invalid_arguments
                        [Zod.issue Zod.defaultErrorMap
                           (Zod.invalid_enum_value ["daily"; "hourly"] "5m")
                           [Zod.Key "interval"]]))).
Proof.
  split; [reflexivity|].
  apply (server_handler_rejects_ohlc_arguments Z asciiToLowerCase
           (upstream_with (Throw (Error "unused")) (Throw (Error "unused")))
           Zod.defaultErrorMap integerToString catalogue
           (range_bag 1711296000 1711382400 "5m")).
  reflexivity.
Defined.

Example server_handler_five_minutes :
  snd (server_handler asciiToLowerCase
         (upstream_with (Throw (Error "unused")) (Throw (Error "unused")))
         Zod.defaultErrorMap integerToString
         {| CallToolRequest.name := "get-ohlc-data";
            CallToolRequest.arguments :=
              range_bag 1711296000 1711382400 "5m" |}
         catalogue)
  = Throw (Error
      "Invalid arguments: interval: Invalid enum value. Expected 'daily' | 'hourly', received '5m'").
Proof. reflexivity. Qed.

Lemma server_handler_get_ohlc_data_witness :
  Zod.safeParse Zod.defaultErrorMap GetOHLCDataArgumentsSchema
    (range_bag 1711296000 1711382400 "hourly")
  = inr ("bitcoin",
         ("usd", (JS.Integer 1711296000,
                  (JS.Integer 1711382400, ("hourly", tt)))))
  /\ ohlc_range
       (upstream_with (Throw (Error "unused")) (Return (success ragged_rows)))
       (requests catalogue)
       (ohlc_request integerToString catalogue "bitcoin" "usd"
          (JS.Integer 1711296000) (JS.Integer 1711382400) "hourly")
     = Return (success ragged_rows)
  /\ ok (success ragged_rows) = true
  /\ json (success ragged_rows) = Return ragged_rows
  /\ Z.abs (1711296000 * 1000) <= 8640000000000000
  /\ Z.abs (1711382400 * 1000) <= 8640000000000000
  /\ exists w',
       server_handler asciiToLowerCase
         (upstream_with (Throw (Error "unused")) (Return (success ragged_rows)))
         Zod.defaultErrorMap integerToString
         {| CallToolRequest.name := "get-ohlc-data";
            CallToolRequest.arguments :=
              range_bag 1711296000 1711382400 "hourly" |}
         catalogue
       = (w', Return (OHLCRange (ISO (1711296000 * 1000))
                        (ISO (1711382400 * 1000)) "hourly"
                        (map reshape ragged_rows)))
       /\ this w' = this catalogue
       /\ ("hourly" = "daily" \/ "hourly" = "hourly").
Proof.
  split; [reflexivity|]. split; [reflexivity|]. split; [reflexivity|].
  split; [reflexivity|]. split; [lia|]. split; [lia|].
  apply (server_handler_get_ohlc_data Z asciiToLowerCase
           (upstream_with (Throw (Error "unused"))
              (Return (success ragged_rows)))
           Zod.defaultErrorMap integerToString catalogue
           (range_bag 1711296000 1711382400 "hourly")
           "bitcoin" "usd" 1711296000 1711382400
           "hourly" (success ragged_rows) ragged_rows);
    try reflexivity; lia.
Defined.

(** A time of a second and a half is cut to the millisecond 1500. *)
Example toISOString_fraction :
  toISOString (JS.mul one_and_a_half (JS.Integer 1000)) catalogue
  = (catalogue, Return (ISO 1500)).
Proof. vm_compute. reflexivity. Qed.

(** A refreshed cache, then a refresh that fails and a call that is
    rejected. *)
Lemma serve_keeps_lastUpdated_witness :
  lastUpdated (this refreshed) <> None
  /\ lastUpdated
       (this (fst (serve asciiToLowerCase
                     (upstream_with (Return server_error)
                        (Throw (Error "unused")))
                     Zod.defaultErrorMap integerToString
                     [{| CallToolRequest.name := "refresh-cache";
                         CallToolRequest.arguments := VUndefined |};
                      too_many_per_page]
                     refreshed)))
     <> None.
Proof.
  split; [discriminate|].
  apply (serve_keeps_lastUpdated Z asciiToLowerCase
           (upstream_with (Return server_error) (Throw (Error "unused")))
           Zod.defaultErrorMap integerToString refreshed
           [{| CallToolRequest.name := "refresh-cache";
               CallToolRequest.arguments := VUndefined |};
            too_many_per_page]).
  discriminate.
Defined.

(** A process whose upstream is down at start-up exits with code 1. *)
Example start_upstream_down :
  start (upstream_with (Return server_error) (Throw (Error "unused"))) "CG-key"
  = Exited 1
      {| this := constructor "CG-key";
         requests := [refresh_request (initial "CG-key")];
         console :=
           [[LogString "Error refreshing coin cache:";
             LogThrown (Error "API request failed: Internal Server Error")];
            [LogString "Failed to initialize coin cache:";
             LogThrown (Error "API request failed: Internal Server Error")]] |}.
Proof. reflexivity. Qed.
